(** * drf_auth_email: the action-code views over an explicit database state

    Shallow embedding of [src/drf_auth_email/views.py].  Every view is a
    function from the database state and the request to the new state and
    the HTTP response.  The ORM calls the views make are written out on
    tables kept as lists of rows in insertion order. *)

From Stdlib Require Import List String Bool Arith ZArith Lia.
Import ListNotations.
Open Scope string_scope.

(** ** Rows *)

(** The three concrete action-code models of [models.py]. *)
Inductive Kind := SignupCode | PasswordResetCode | EmailChangeCode.

(** [USER = get_user_model()]: the fields the views read and write. *)
Record User := mkUser {
  pk : nat;
  email : string;
  password : string;
  first_name : string;
  last_name : string;
  is_verified : bool;
  is_active : bool
}.

(** One row of an action-code table.  [new_email] is only meaningful for
    [EmailChangeCode]. *)
Record CodeRow := mkCodeRow {
  code : string;
  user_id : nat;
  created_at : Z;
  expires_at : Z;
  ipaddr : string;
  link : string;
  new_email : string
}.

(** [rest_framework.authtoken.models.Token]. *)
Record Token := mkToken { key : string; token_user : nat }.

Inductive Template := SignupMail | PasswordResetMail | EmailChangeMail | WelcomeMail.

(** A message handed to the e-mail sender. *)
Record Mail := mkMail {
  template : Template;
  target : string;
  mail_code : string;
  mail_link : string
}.

(** The whole mutable state a request can touch. *)
Record DB := mkDB {
  users : list User;
  signup_codes : list CodeRow;
  password_reset_codes : list CodeRow;
  email_change_codes : list CodeRow;
  tokens : list Token;
  outbox : list Mail
}.

(** ** Requests and responses *)

(** [request.data]; a missing [link] is [None]. *)
Record RequestData := mkData {
  d_email : string;
  d_password : string;
  d_new_password : string;
  d_first_name : string;
  d_last_name : string;
  d_link : option string
}.

Record Request := mkRequest {
  GET_code : option string;      (* request.GET.get('code') *)
  data : RequestData;            (* request.data *)
  request_user : User;           (* request.user, for IsAuthenticated views *)
  client_ip : option string      (* get_client_ip(request)[0] *)
}.

(** What the request draws from its environment: the clock and the value
    the code generator produces for a new row. *)
Record Env := mkEnv { now : Z; fresh_code : string }.

Inductive Body :=
| detail (msg : string)                  (* {'detail': ...} *)
| success (msg : string)                 (* {'success': ...} *)
| success_email (msg addr : string)      (* {'success': ..., 'email': ...} *)
| serializer_errors (d : RequestData)    (* serializer.errors *)
| serializer_data (u : User).            (* user_serializer.data *)

Record Response := mkResponse { body : Body; status : nat }.

Definition HTTP_200_OK := 200.
Definition HTTP_201_CREATED := 201.
Definition HTTP_400_BAD_REQUEST := 400.

(** The two causes for which [check_is_valid] raises. *)
Inductive InvalidCodeCause := NotFound | Expired.

(** The [ValueError]s the views catch. *)
Inductive ValueError :=
| InvalidCode (cause : InvalidCodeCause)
| ValueError_ (msg : string).

(** ** Collaborators that are not part of [views.py]

    The serializers, the password hasher, the lifetime of each kind of code
    and the wording of the [check_is_valid] errors live in other modules of
    the package; the views only call them. *)
Class Externals := {
  SignupSerializer_is_valid : RequestData -> bool;
  UserSerializer_is_valid : User -> RequestData -> bool;
  PasswordResetSerializer_is_valid : RequestData -> bool;
  PasswordResetVerifiedSerializer_is_valid : RequestData -> bool;
  EmailChangeSerializer_is_valid : RequestData -> bool;
  PasswordChangeSerializer_is_valid : RequestData -> bool;
  make_password : string -> string;
  expiry_period : Kind -> Z;
  invalid_code_message : InvalidCodeCause -> string
}.

(** [str(err)]. *)
Definition str {E : Externals} (err : ValueError) : string :=
  match err with
  | InvalidCode cause => invalid_code_message cause
  | ValueError_ msg => msg
  end.

(** Python's [x or default] on an optional string: [None] and the empty
    string are both falsy. *)
Definition py_or (x : option string) (default : string) : string :=
  match x with
  | Some EmptyString => default
  | Some s => s
  | None => default
  end.

(** ** The ORM calls the views use *)

Definition objects (k : Kind) (st : DB) : list CodeRow :=
  match k with
  | SignupCode => signup_codes st
  | PasswordResetCode => password_reset_codes st
  | EmailChangeCode => email_change_codes st
  end.

Definition set_users (us : list User) (st : DB) : DB :=
  mkDB us (signup_codes st) (password_reset_codes st) (email_change_codes st)
       (tokens st) (outbox st).

Definition set_objects (k : Kind) (rows : list CodeRow) (st : DB) : DB :=
  match k with
  | SignupCode =>
      mkDB (users st) rows (password_reset_codes st) (email_change_codes st)
           (tokens st) (outbox st)
  | PasswordResetCode =>
      mkDB (users st) (signup_codes st) rows (email_change_codes st)
           (tokens st) (outbox st)
  | EmailChangeCode =>
      mkDB (users st) (signup_codes st) (password_reset_codes st) rows
           (tokens st) (outbox st)
  end.

Definition send (m : Mail) (st : DB) : DB :=
  mkDB (users st) (signup_codes st) (password_reset_codes st)
       (email_change_codes st) (tokens st) (outbox st ++ [m]).

Definition has_pk (p : nat) (u : User) : bool := Nat.eqb (pk u) p.
Definition has_email (e : string) (u : User) : bool := String.eqb (email u) e.
Definition owned_by (p : nat) (r : CodeRow) : bool := Nat.eqb (user_id r) p.
Definition has_code (c : string) (r : CodeRow) : bool := String.eqb (code r) c.

(** [USER.objects.filter(email=e).first()]. *)
Definition USER_filter_email_first (e : string) (st : DB) : option User :=
  hd_error (filter (has_email e) (users st)).

(** The user row with a given primary key. *)
Definition USER_get (p : nat) (st : DB) : option User :=
  find (has_pk p) (users st).

(** The primary key an insert into the user table receives. *)
Definition next_pk (st : DB) : nat := S (list_max (map pk (users st))).

(** [user.save()]: update the row with this primary key, insert it when no
    such row exists. *)
Definition User_save (u : User) (st : DB) : DB :=
  if existsb (has_pk (pk u)) (users st)
  then set_users (map (fun v => if has_pk (pk u) v then u else v) (users st)) st
  else set_users (users st ++ [u]) st.

(** [user.delete()]: the row goes, and with it every row that refers to
    it (action codes of all kinds and tokens). *)
Definition User_delete (u : User) (st : DB) : DB :=
  let other := fun r => negb (owned_by (pk u) r) in
  mkDB (filter (fun v => negb (has_pk (pk u) v)) (users st))
       (filter other (signup_codes st))
       (filter other (password_reset_codes st))
       (filter other (email_change_codes st))
       (filter (fun t => negb (Nat.eqb (token_user t) (pk u))) (tokens st))
       (outbox st).

(** [model.objects.filter(user=user).delete()]. *)
Definition objects_filter_user_delete (k : Kind) (u : User) (st : DB) : DB :=
  set_objects k (filter (fun r => negb (owned_by (pk u) r)) (objects k st)) st.

(** The codes of kind [k] outstanding for the user with key [p]. *)
Definition codes_of (k : Kind) (p : nat) (st : DB) : list CodeRow :=
  filter (owned_by p) (objects k st).

(** Modelled from the spec: the defaults of the user model, which is not
    part of [views.py]; a newly created stub is unverified, active and has
    no profile data.  The function is [USER.objects.get_or_create(email=e)]. *)
Definition USER_get_or_create (e : string) (st : DB) : DB * User * bool :=
  match USER_filter_email_first e st with
  | Some u => (st, u, false)
  | None =>
      let u := mkUser (next_pk st) e EmptyString EmptyString EmptyString
                      false true in
      (set_users (users st ++ [u]) st, u, true)
  end.

(** Modelled from the spec: the defaults of the code models of [models.py];
    the code string is generated at creation and the expiry is derived from
    the issuance time by a kind-specific lifetime.  The function is
    [model.objects.create(user=..., ipaddr=..., link=..., [new_email=...])]. *)
Definition objects_create {E : Externals} (k : Kind) (env : Env) (u : User)
    (ip lnk addr : string) (st : DB) : DB * CodeRow :=
  let r := mkCodeRow (fresh_code env) (pk u) (now env)
                     (now env + expiry_period k)%Z ip lnk addr in
  (set_objects k (objects k st ++ [r]) st, r).

(** An action code as the views hold it: the row together with its user,
    loaded in the same query ([select_related_user=True]). *)
Record ActionCode := mkActionCode { row : CodeRow; user : User }.

(** Modelled from the spec: [check_is_valid] is a class method of the
    abstract code model, which is not under [views.py].  It looks the code
    string up among the codes of its own kind, fails with "not found" when
    no row matches, with "expired" when [now > expires_at], and otherwise
    returns the row with its owning user resolved.  It only reads.  The
    keyword [select_related_user] of the callers only moves the loading of
    the user into the same query, which makes no difference here. *)
Definition check_is_valid (k : Kind) (t : Z) (st : DB) (c : option string)
    : ValueError + ActionCode :=
  match c with
  | None => inl (InvalidCode NotFound)
  | Some c =>
      match find (has_code c) (objects k st) with
      | None => inl (InvalidCode NotFound)
      | Some r =>
          if (expires_at r <? t)%Z then inl (InvalidCode Expired)
          else
            match USER_get (user_id r) st with
            | None => inl (InvalidCode NotFound)
            | Some u => inr (mkActionCode r u)
            end
      end
  end.

Definition template_of (k : Kind) : Template :=
  match k with
  | SignupCode => SignupMail
  | PasswordResetCode => PasswordResetMail
  | EmailChangeCode => EmailChangeMail
  end.

(** Modelled from the spec: [send_email] of a code model hands the raw code
    and the continuation link to the e-mail sender; an email-change code is
    sent to the candidate address, the others to the user's address. *)
Definition send_email (k : Kind) (r : CodeRow) (u : User) (st : DB) : DB :=
  let addr := match k with EmailChangeCode => new_email r | _ => email u end in
  send (mkMail (template_of k) addr (code r) (link r)) st.

Definition with_verified (u : User) : User :=
  mkUser (pk u) (email u) (password u) (first_name u) (last_name u)
         true (is_active u).

Definition with_email (e : string) (u : User) : User :=
  mkUser (pk u) e (password u) (first_name u) (last_name u)
         (is_verified u) (is_active u).

(** [user.set_password(raw)]. *)
Definition set_password {E : Externals} (raw : string) (u : User) : User :=
  mkUser (pk u) (email u) (make_password raw) (first_name u) (last_name u)
         (is_verified u) (is_active u).

(** [user.check_password(raw)]. *)
Definition check_password {E : Externals} (u : User) (raw : string) : bool :=
  String.eqb (password u) (make_password raw).

(** Modelled from the spec: [verify_user] of [models.py] marks the code's
    user as verified.  As the two mutators below it changes one field of
    the user loaded with the code and saves that user. *)
Definition verify_user (ac : ActionCode) (st : DB) : DB :=
  User_save (with_verified (user ac)) st.

(** Modelled from the spec: [change_user_password] of [models.py] sets the
    password credential of the code's user to the new value. *)
Definition change_user_password {E : Externals} (ac : ActionCode)
    (raw : string) (st : DB) : DB :=
  User_save (set_password raw (user ac)) st.

(** Modelled from the spec: [change_user_email] of [models.py] sets the
    email of the code's user to the candidate address of the code. *)
Definition change_user_email (ac : ActionCode) (st : DB) : DB :=
  User_save (with_email (new_email (row ac)) (user ac)) st.

(** ** The views *)

Definition proceed_action (k : Kind) : string :=
  match k with
  | SignupCode => "verify signup"
  | PasswordResetCode => "password reset"
  | EmailChangeCode => "email change"
  end.

Definition success_message (k : Kind) : string :=
  match k with
  | SignupCode => "User email address has been verified."
  | PasswordResetCode => "User password has been reset."
  | EmailChangeCode => "Email address has been changed."
  end.

Definition email_taken : string := "Email address already taken.".
Definition reset_not_allowed : string := "Password reset not allowed.".

(** [ActionCodeVerifyView.get], with [action_code_model] and
    [proceed_action] set by [SignupCodeVerify], [PasswordResetCodeVerify]
    and [EmailChangeCodeVerify]. *)
Definition ActionCodeVerifyView_get {E : Externals} (k : Kind) (env : Env)
    (st : DB) (request : Request) : DB * Response :=
  match check_is_valid k (now env) st (GET_code request) with
  | inl err => (st, mkResponse (detail (str err)) HTTP_400_BAD_REQUEST)
  | inr _ =>
      (st, mkResponse
             (success ("The given `code` parameter is valid, can proceed to "
                       ++ proceed_action k ++ "."))
             HTTP_200_OK)
  end.

(** The keyword arguments [handle_request] passes on: the validated
    serializer of a password reset, nothing for the other kinds. *)
Definition Kwargs := option RequestData.

(** [PasswordResetVerify.handle_request]. *)
Definition PasswordResetVerify_handle_request {E : Externals} (st : DB)
    (request : Request) (action_code : ActionCode) : DB * (Kwargs + Response) :=
  if negb (PasswordResetVerifiedSerializer_is_valid (data request))
  then (st, inr (mkResponse (serializer_errors (data request))
                            HTTP_400_BAD_REQUEST))
  else (st, inl (Some (data request))).

(** [EmailChangeVerify.handle_request]. *)
Definition EmailChangeVerify_handle_request (st : DB) (request : Request)
    (action_code : ActionCode) : DB * (Kwargs + Response) :=
  match USER_filter_email_first (new_email (row action_code)) st with
  | Some user_with_new_email =>
      if is_verified user_with_new_email
      then (st, inr (mkResponse (detail email_taken) HTTP_400_BAD_REQUEST))
      else (User_delete user_with_new_email st, inl None)
  | None => (st, inl None)
  end.

(** [handle_request] as each subclass of [ActionVerifyView] has it;
    [SignupVerify] keeps the default, which returns an empty dict. *)
Definition handle_request {E : Externals} (k : Kind) (st : DB)
    (request : Request) (action_code : ActionCode) : DB * (Kwargs + Response) :=
  match k with
  | SignupCode => (st, inl None)
  | PasswordResetCode => PasswordResetVerify_handle_request st request action_code
  | EmailChangeCode => EmailChangeVerify_handle_request st request action_code
  end.

(** [SignupVerify.send_welcome_email]. *)
Definition send_welcome_email (action_code : ActionCode) (st : DB) : DB :=
  send (mkMail WelcomeMail (email (user action_code)) EmptyString EmptyString) st.

(** [SignupVerify.handle_action_code]. *)
Definition SignupVerify_handle_action_code (action_code : ActionCode)
    (st : DB) : DB :=
  let st := verify_user action_code st in
  let st := send_welcome_email action_code st in
  objects_filter_user_delete SignupCode (user action_code) st.

(** [PasswordResetVerify.handle_action_code]. *)
Definition PasswordResetVerify_handle_action_code {E : Externals}
    (action_code : ActionCode) (kwargs : Kwargs) (st : DB) : DB :=
  let raw := match kwargs with
             | Some serializer => d_password serializer
             | None => EmptyString
             end in
  let st := change_user_password action_code raw st in
  objects_filter_user_delete PasswordResetCode (user action_code) st.

(** [EmailChangeVerify.handle_action_code]. *)
Definition EmailChangeVerify_handle_action_code (action_code : ActionCode)
    (st : DB) : DB :=
  let st := change_user_email action_code st in
  objects_filter_user_delete EmailChangeCode (user action_code) st.

Definition handle_action_code {E : Externals} (k : Kind)
    (action_code : ActionCode) (kwargs : Kwargs) (st : DB) : DB :=
  match k with
  | SignupCode => SignupVerify_handle_action_code action_code st
  | PasswordResetCode =>
      PasswordResetVerify_handle_action_code action_code kwargs st
  | EmailChangeCode => EmailChangeVerify_handle_action_code action_code st
  end.

(** [ActionVerifyView.post], which [SignupVerify.post],
    [PasswordResetVerify.post] and [EmailChangeVerify.post] call through
    [super()]. *)
Definition ActionVerifyView_post {E : Externals} (k : Kind) (env : Env)
    (st : DB) (request : Request) : DB * Response :=
  match check_is_valid k (now env) st (GET_code request) with
  | inl err => (st, mkResponse (detail (str err)) HTTP_400_BAD_REQUEST)
  | inr action_code =>
      match handle_request k st request action_code with
      | (st, inr response) => (st, response)
      | (st, inl kwargs) =>
          let st := handle_action_code k action_code kwargs st in
          (st, mkResponse (success (success_message k)) HTTP_200_OK)
      end
  end.

(** [Signup.check_verified_users]. *)
Definition check_verified_users (st : DB) (serializer : RequestData)
    : DB * (ValueError + User) :=
  let '(st, user, is_created) := USER_get_or_create (d_email serializer) st in
  if negb is_created && is_verified user
  then (st, inl (ValueError_ email_taken))
  else (st, inr user).

(** Modelled from the spec: [UserSerializer] of [serializers.py]; its
    [save()] on an existing instance with [partial=True] fills the profile
    fields of the stub in from the request and saves it. *)
Definition UserSerializer_save {E : Externals} (u : User) (d : RequestData)
    (st : DB) : DB * User :=
  let u' := mkUser (pk u) (email u) (make_password (d_password d))
                   (d_first_name d) (d_last_name d)
                   (is_verified u) (is_active u) in
  (User_save u' st, u').

Definition unknown_ip : string := "0.0.0.0".

(** [Signup.post]. *)
Definition Signup_post {E : Externals} (env : Env) (st : DB)
    (request : Request) : DB * Response :=
  if negb (SignupSerializer_is_valid (data request))
  then (st, mkResponse (serializer_errors (data request)) HTTP_400_BAD_REQUEST)
  else
    match check_verified_users st (data request) with
    | (st, inl err) => (st, mkResponse (detail (str err)) HTTP_400_BAD_REQUEST)
    | (st, inr user) =>
        if negb (UserSerializer_is_valid user (data request))
        then (st, mkResponse (serializer_errors (data request))
                             HTTP_400_BAD_REQUEST)
        else
          let '(st, user) := UserSerializer_save user (data request) st in
          let '(st, signup_code) :=
            objects_create SignupCode env user
              (py_or (client_ip request) unknown_ip)
              (py_or (d_link (data request)) EmptyString)
              EmptyString st in
          let st := send_email SignupCode signup_code user st in
          (st, mkResponse (serializer_data user) HTTP_201_CREATED)
    end.

(** [PasswordReset.post]. *)
Definition PasswordReset_post {E : Externals} (env : Env) (st : DB)
    (request : Request) : DB * Response :=
  if negb (PasswordResetSerializer_is_valid (data request))
  then (st, mkResponse (serializer_errors (data request)) HTTP_400_BAD_REQUEST)
  else
    match USER_filter_email_first (d_email (data request)) st with
    | Some user =>
        if is_verified user && is_active user
        then
          let '(st, password_reset_code) :=
            objects_create PasswordResetCode env user
              (py_or (client_ip request) unknown_ip)
              (py_or (d_link (data request)) EmptyString)
              EmptyString st in
          let st := send_email PasswordResetCode password_reset_code user st in
          (st, mkResponse
                 (success_email
                    "The email with the password reset code will be sent soon."
                    (email user))
                 HTTP_201_CREATED)
        else (st, mkResponse (detail reset_not_allowed) HTTP_400_BAD_REQUEST)
    | None => (st, mkResponse (detail reset_not_allowed) HTTP_400_BAD_REQUEST)
    end.

(** [EmailChange.post]. *)
Definition EmailChange_post {E : Externals} (env : Env) (st : DB)
    (request : Request) : DB * Response :=
  if negb (EmailChangeSerializer_is_valid (data request))
  then (st, mkResponse (serializer_errors (data request)) HTTP_400_BAD_REQUEST)
  else
    let new_email := d_email (data request) in
    let taken := match USER_filter_email_first new_email st with
                 | Some user_with_new_email => is_verified user_with_new_email
                 | None => false
                 end in
    if taken
    then (st, mkResponse (detail email_taken) HTTP_400_BAD_REQUEST)
    else
      let '(st, email_change_code) :=
        objects_create EmailChangeCode env (request_user request)
          (py_or (client_ip request) unknown_ip)
          (py_or (d_link (data request)) EmptyString)
          new_email st in
      let st := send_email EmailChangeCode email_change_code
                           (request_user request) st in
      (st, mkResponse
             (success_email
                "The email with the email change code will be sent soon."
                new_email)
             HTTP_201_CREATED).

(** [PasswordChange.post]. *)
Definition PasswordChange_post {E : Externals} (st : DB) (request : Request)
    : DB * Response :=
  if negb (PasswordChangeSerializer_is_valid (data request))
  then (st, mkResponse (serializer_errors (data request)) HTTP_400_BAD_REQUEST)
  else
    let user := request_user request in
    if negb (check_password user (d_password (data request)))
    then (st, mkResponse
                (detail ("The given `password` field does not match with the "
                         ++ "user password."))
                HTTP_400_BAD_REQUEST)
    else
      let user := set_password (d_new_password (data request)) user in
      let st := User_save user st in
      (st, mkResponse (success "Password has been changed.") HTTP_200_OK).

(** [Logout.post]. *)
Definition Logout_post (st : DB) (request : Request) : DB * Response :=
  let mine := fun t => Nat.eqb (token_user t) (pk (request_user request)) in
  (mkDB (users st) (signup_codes st) (password_reset_codes st)
        (email_change_codes st) (filter (fun t => negb (mine t)) (tokens st))
        (outbox st),
   mkResponse (success "User logged out.") HTTP_200_OK).

(** ** Login

    [Login.post] answers with a token, which no other view does, so its
    response has a body of its own.  The serializer and
    [django.contrib.auth.authenticate] are collaborators; the latter is
    taken as a function of the user table and the credentials. *)

Definition HTTP_401_UNAUTHORIZED := 401.

Class Credentials := {
  LoginSerializer_is_valid : RequestData -> bool;
  authenticate : list User -> string -> string -> option User
}.

Inductive LoginBody :=
| token (k : string)       (* {'token': token.key} *)
| plain (b : Body).

Record LoginResponse := mkLoginResponse {
  login_body : LoginBody;
  login_status : nat
}.

Definition set_tokens (ts : list Token) (st : DB) : DB :=
  mkDB (users st) (signup_codes st) (password_reset_codes st)
       (email_change_codes st) ts (outbox st).

Definition token_of (p : nat) (t : Token) : bool := Nat.eqb (token_user t) p.

(** [Token.objects.get_or_create(user=user)]; [generated] is the key a new
    token row receives. *)
Definition Token_get_or_create (generated : string) (u : User) (st : DB)
    : DB * Token * bool :=
  match find (token_of (pk u)) (tokens st) with
  | Some t => (st, t, false)
  | None =>
      let t := mkToken generated (pk u) in
      (set_tokens (tokens st ++ [t]) st, t, true)
  end.

(** [Login.authenticate_user]. *)
Definition authenticate_user {C : Credentials} (st : DB)
    (serializer : RequestData) : option User :=
  authenticate (users st) (d_email serializer) (d_password serializer).

(** [Login.post]. *)
Definition Login_post {C : Credentials} (generated : string) (st : DB)
    (request : Request) : DB * LoginResponse :=
  if negb (LoginSerializer_is_valid (data request))
  then (st, mkLoginResponse (plain (serializer_errors (data request)))
                            HTTP_400_BAD_REQUEST)
  else
    match authenticate_user st (data request) with
    | None =>
        (st, mkLoginResponse
               (plain (detail "Unable to login with provided credentials."))
               HTTP_401_UNAUTHORIZED)
    | Some user =>
        if negb (is_verified user)
        then (st, mkLoginResponse (plain (detail "User account not verified."))
                                  HTTP_401_UNAUTHORIZED)
        else if negb (is_active user)
        then (st, mkLoginResponse (plain (detail "User account not active."))
                                  HTTP_401_UNAUTHORIZED)
        else
          let '(st, t, is_created) := Token_get_or_create generated user st in
          (st, mkLoginResponse (token (key t)) HTTP_200_OK)
    end.

(** ** Properties of states and responses *)

(** The user directory keeps e-mail addresses unique. *)
Definition emails_unique (st : DB) : Prop := NoDup (map email (users st)).

(** Code strings are unique among the outstanding codes of one kind. *)
Definition codes_unique (k : Kind) (st : DB) : Prop :=
  NoDup (map code (objects k st)).

(** A bearer token is accepted when its row exists and its user is an
    active row of the user table. *)
Definition token_valid (st : DB) (s : string) : bool :=
  existsb (fun t => String.eqb (key t) s &&
                    match USER_get (token_user t) st with
                    | Some u => is_active u
                    | None => false
                    end) (tokens st).

(** The response every [check_is_valid] failure is turned into. *)
Definition invalid_code_response {E : Externals} (cause : InvalidCodeCause)
    : Response :=
  mkResponse (detail (str (InvalidCode cause))) HTTP_400_BAD_REQUEST.

(** Some user with address [e] is verified. *)
Definition verified_owner (e : string) (st : DB) : bool :=
  existsb (fun u => has_email e u && is_verified u) (users st).

(** Some user with address [e] is verified and active. *)
Definition may_reset_password (e : string) (st : DB) : bool :=
  existsb (fun u => has_email e u && (is_verified u && is_active u)) (users st).

(** A request issued one code of kind [k] for user [u] and handed it to the
    e-mail sender, and did nothing else to the codes and the outbox. *)
Definition issued {E : Externals} (k : Kind) (env : Env) (u : User)
    (addr : string) (st st' : DB) : Prop :=
  exists r,
    objects k st' = (objects k st ++ [r])%list /\
    code r = fresh_code env /\ user_id r = pk u /\
    expires_at r = (now env + expiry_period k)%Z /\
    outbox st' =
      (outbox st ++ [mkMail (template_of k) addr (code r) (link r)])%list.


(** The stub [Signup.check_verified_users] resolves for an address. *)
Definition signup_stub (e : string) (st : DB) : User :=
  snd (fst (USER_get_or_create e st)).

(** The pre-check called once per entry of [envs], one call after the
    other on the state the previous call left. *)
Fixpoint precheck_many {E : Externals} (k : Kind) (envs : list Env) (st : DB)
    (request : Request) : DB * list Response :=
  match envs with
  | [] => (st, [])
  | env :: envs =>
      let '(st, r) := ActionCodeVerifyView_get k env st request in
      let '(st, rs) := precheck_many k envs st request in
      (st, r :: rs)
  end.

(** Primary keys of the user table are unique. *)
Definition pks_unique (st : DB) : Prop := NoDup (map pk (users st)).

(** Token keys are unique. *)
Definition keys_unique (st : DB) : Prop := NoDup (map key (tokens st)).

(** ** Concrete collaborators and states used in the examples *)

(** Serializers that accept every request, an identity hasher, a lifetime
    of 100 time units for every kind of code. *)
Definition lenient : Externals := {|
  SignupSerializer_is_valid := fun _ => true;
  UserSerializer_is_valid := fun _ _ => true;
  PasswordResetSerializer_is_valid := fun _ => true;
  PasswordResetVerifiedSerializer_is_valid := fun _ => true;
  EmailChangeSerializer_is_valid := fun _ => true;
  PasswordChangeSerializer_is_valid := fun _ => true;
  make_password := fun raw => raw;
  expiry_period := fun _ => 100%Z;
  invalid_code_message := fun c =>
    match c with
    | NotFound => "Invalid code."
    | Expired => "Code has expired."
    end
|}.

Definition alice : User :=
  mkUser 1 "alice@example.com" "old" "Alice" "A" true true.
Definition bob : User :=
  mkUser 2 "bob@example.com" "pw" "Bob" "B" false true.
Definition carol : User :=
  mkUser 3 "carol@example.com" "pw3" "Carol" "C" true true.

Definition empty_db : DB := mkDB [] [] [] [] [] [].

(** Alice (verified), Bob (unverified stub) and Carol (verified); Alice has
    two outstanding codes of every kind, her email-change codes ask for
    Bob's address; Bob has a signup code; Alice holds one token. *)
Definition demo_db : DB :=
  mkDB [alice; bob; carol]
       [mkCodeRow "s1" 1 0 100 "10.0.0.1" "l" EmptyString;
        mkCodeRow "s2" 1 5 105 "10.0.0.1" "l" EmptyString;
        mkCodeRow "s3" 2 5 105 "10.0.0.2" "l" EmptyString]
       [mkCodeRow "p1" 1 0 100 "10.0.0.1" "l" EmptyString;
        mkCodeRow "p2" 1 5 105 "10.0.0.1" "l" EmptyString]
       [mkCodeRow "e1" 1 0 100 "10.0.0.1" "l" "bob@example.com";
        mkCodeRow "e2" 1 5 105 "10.0.0.1" "l" "bob@example.com";
        mkCodeRow "e3" 1 5 105 "10.0.0.1" "l" "carol@example.com"]
       [mkToken "tok-alice" 1]
       [].

Definition demo_data : RequestData :=
  mkData "dave@example.com" "old" "Str0ngP@ss" "Dave" "D" None.

Definition demo_env : Env := mkEnv 50 "fresh".

Definition demo_request (c : string) : Request :=
  mkRequest (Some c) demo_data alice (Some "10.0.0.9").

(** Dan is unverified and has asked to change his address to the one he
    already has; he holds a token. *)
Definition dan : User :=
  mkUser 4 "dan@example.com" "pw4" "Dan" "D" false true.

Definition self_db : DB :=
  mkDB [alice; dan] [] []
       [mkCodeRow "e7" 4 0 100 "10.0.0.4" "l" "dan@example.com"]
       [mkToken "tok-dan" 4]
       [].

(** Credentials are checked against the stored password as it is; every
    login request passes the serializer. *)
Definition by_password : Credentials := {|
  LoginSerializer_is_valid := fun _ => true;
  authenticate := fun us e p =>
    find (fun u => has_email e u && String.eqb (password u) p) us
|}.

Definition login_request (e p : string) (u : User) : Request :=
  mkRequest None (mkData e p EmptyString EmptyString EmptyString None) u None.

(** ** How the ORM calls act on the tables *)

Lemma objects_set_objects k rows st : objects k (set_objects k rows st) = rows.
Proof. destruct k; reflexivity. Qed.

Lemma users_set_objects k rows st : users (set_objects k rows st) = users st.
Proof. destruct k; reflexivity. Qed.

Lemma outbox_set_objects k rows st : outbox (set_objects k rows st) = outbox st.
Proof. destruct k; reflexivity. Qed.

Lemma objects_User_save k u st : objects k (User_save u st) = objects k st.
Proof.
  unfold User_save; destruct (existsb _ _), k; reflexivity.
Qed.

Lemma tokens_User_save u st : tokens (User_save u st) = tokens st.
Proof. unfold User_save; destruct (existsb _ _); reflexivity. Qed.

Lemma outbox_User_save u st : outbox (User_save u st) = outbox st.
Proof. unfold User_save; destruct (existsb _ _); reflexivity. Qed.

Lemma objects_send k m st : objects k (send m st) = objects k st.
Proof. destruct k; reflexivity. Qed.

Lemma objects_User_delete k u st :
  objects k (User_delete u st)
  = filter (fun r => negb (owned_by (pk u) r)) (objects k st).
Proof. destruct k; reflexivity. Qed.

Lemma objects_filter_user_delete_same k u st :
  objects k (objects_filter_user_delete k u st)
  = filter (fun r => negb (owned_by (pk u) r)) (objects k st).
Proof. unfold objects_filter_user_delete; apply objects_set_objects. Qed.

(** No row of a table survives a filter that drops its owner. *)
Lemma codes_of_after_delete p (rows : list CodeRow) :
  filter (owned_by p) (filter (fun r => negb (owned_by p r)) rows) = [].
Proof.
  induction rows as [|r rows IH]; simpl; [reflexivity|].
  destruct (owned_by p r) eqn:Hr; simpl; [exact IH|].
  rewrite Hr; exact IH.
Qed.

Lemma filter_sublist {A} (f : A -> bool) (l : list A) (x : A) :
  In x (filter f l) -> In x l.
Proof. intro H; apply filter_In in H; tauto. Qed.

(** ** Looking users up *)

Lemma USER_get_pk p st u : USER_get p st = Some u -> pk u = p.
Proof.
  unfold USER_get; intro H; apply find_some in H as [_ H].
  apply Nat.eqb_eq; exact H.
Qed.

Lemma find_map_replace (u : User) (l : list User) :
  existsb (has_pk (pk u)) l = true ->
  find (has_pk (pk u)) (map (fun v => if has_pk (pk u) v then u else v) l)
  = Some u.
Proof.
  induction l as [|v l IH]; simpl; [discriminate|].
  destruct (has_pk (pk u) v) eqn:Hv; simpl.
  - intros _. unfold has_pk at 1. rewrite Nat.eqb_refl. reflexivity.
  - intro H. rewrite Hv. apply IH, H.
Qed.

Lemma find_app_new (u : User) (l : list User) :
  existsb (has_pk (pk u)) l = false ->
  find (has_pk (pk u)) (l ++ [u]) = Some u.
Proof.
  induction l as [|v l IH]; simpl.
  - intros _. unfold has_pk. rewrite Nat.eqb_refl. reflexivity.
  - destruct (has_pk (pk u) v); simpl; [discriminate|exact IH].
Qed.

(** After [user.save()] the row with the user's key is the saved one. *)
Lemma USER_get_save u st : USER_get (pk u) (User_save u st) = Some u.
Proof.
  unfold USER_get, User_save.
  destruct (existsb (has_pk (pk u)) (users st)) eqn:Hex; simpl.
  - apply find_map_replace, Hex.
  - apply find_app_new, Hex.
Qed.

Lemma find_map_other (u : User) p (l : list User) :
  p <> pk u ->
  find (has_pk p) (map (fun v => if has_pk (pk u) v then u else v) l)
  = find (has_pk p) l.
Proof.
  intro Hp. induction l as [|v l IH]; simpl; [reflexivity|].
  destruct (has_pk (pk u) v) eqn:Hv.
  - assert (Hu : has_pk p u = false).
    { unfold has_pk. apply Nat.eqb_neq. congruence. }
    assert (Hv' : has_pk p v = false).
    { unfold has_pk in *. apply Nat.eqb_eq in Hv. apply Nat.eqb_neq. congruence. }
    rewrite Hu, Hv'. exact IH.
  - destruct (has_pk p v); [reflexivity|exact IH].
Qed.

Lemma find_app_other (u : User) p (l : list User) :
  p <> pk u -> find (has_pk p) (l ++ [u]) = find (has_pk p) l.
Proof.
  intro Hp. induction l as [|v l IH]; simpl.
  - unfold has_pk. destruct (Nat.eqb_spec (pk u) p); [congruence|reflexivity].
  - destruct (has_pk p v); [reflexivity|exact IH].
Qed.

(** [user.save()] leaves the rows with other keys as they were. *)
Lemma USER_get_save_other u p st :
  p <> pk u -> USER_get p (User_save u st) = USER_get p st.
Proof.
  intro Hp. unfold USER_get, User_save.
  destruct (existsb (has_pk (pk u)) (users st)); simpl.
  - apply find_map_other, Hp.
  - apply find_app_other, Hp.
Qed.

Lemma find_filter_other p q (l : list User) :
  p <> q ->
  find (has_pk p) (filter (fun v => negb (has_pk q v)) l) = find (has_pk p) l.
Proof.
  intro Hpq. induction l as [|v l IH]; simpl; [reflexivity|].
  destruct (has_pk q v) eqn:Hq; simpl.
  - assert (Hv : has_pk p v = false).
    { unfold has_pk in *. apply Nat.eqb_eq in Hq. apply Nat.eqb_neq. congruence. }
    rewrite Hv. exact IH.
  - destruct (has_pk p v); [reflexivity|exact IH].
Qed.

Lemma find_filter_same q (l : list User) :
  find (has_pk q) (filter (fun v => negb (has_pk q v)) l) = None.
Proof.
  induction l as [|v l IH]; simpl; [reflexivity|].
  destruct (has_pk q v) eqn:Hq; simpl; [exact IH|].
  rewrite Hq. exact IH.
Qed.

(** [user.delete()] removes the user's row and no other user's. *)
Lemma USER_get_delete_same u st : USER_get (pk u) (User_delete u st) = None.
Proof. apply find_filter_same. Qed.

Lemma USER_get_delete_other u p st :
  p <> pk u -> USER_get p (User_delete u st) = USER_get p st.
Proof. intro Hp. apply find_filter_other, Hp. Qed.

(** With unique addresses, the user the e-mail lookup returns is the one
    holding the address. *)
Lemma first_by_email e st u :
  emails_unique st -> In u (users st) -> email u = e ->
  USER_filter_email_first e st = Some u.
Proof.
  unfold emails_unique, USER_filter_email_first.
  induction (users st) as [|v l IH]; simpl; [tauto|].
  intros Hnd Hin He. inversion Hnd as [|? ? Hnotin Hnd']; subst.
  destruct Hin as [->|Hin].
  - unfold has_email at 1. rewrite String.eqb_refl. reflexivity.
  - assert (Hv : has_email (email u) v = false).
    { unfold has_email. apply String.eqb_neq. intro Heq.
      apply Hnotin. rewrite Heq. apply in_map, Hin. }
    rewrite Hv. apply IH; auto.
Qed.

Lemma first_by_email_holds e st u :
  USER_filter_email_first e st = Some u -> In u (users st) /\ email u = e.
Proof.
  unfold USER_filter_email_first. intro H.
  destruct (filter (has_email e) (users st)) as [|v l] eqn:Hf; [discriminate|].
  simpl in H. injection H as ->.
  assert (Hin : In u (filter (has_email e) (users st))) by (rewrite Hf; left; auto).
  apply filter_In in Hin as [Hin He]. split; [exact Hin|].
  apply String.eqb_eq, He.
Qed.

Lemma first_by_email_none e st u :
  USER_filter_email_first e st = None -> In u (users st) -> email u <> e.
Proof.
  unfold USER_filter_email_first. intros H Hin He.
  assert (Hf : In u (filter (has_email e) (users st))).
  { apply filter_In. split; [exact Hin|]. apply String.eqb_eq, He. }
  destruct (filter (has_email e) (users st)); [destruct Hf|discriminate].
Qed.

(** ** What [check_is_valid] returns *)

Lemma check_is_valid_ok k t st c ac :
  check_is_valid k t st c = inr ac ->
  exists s, c = Some s /\
    find (has_code s) (objects k st) = Some (row ac) /\
    (expires_at (row ac) <? t)%Z = false /\
    USER_get (user_id (row ac)) st = Some (user ac).
Proof.
  unfold check_is_valid. destruct c as [s|]; [|discriminate].
  destruct (find (has_code s) (objects k st)) as [r|] eqn:Hf; [|discriminate].
  destruct (expires_at r <? t)%Z eqn:Hexp; [discriminate|].
  destruct (USER_get (user_id r) st) as [u|] eqn:Hu; [|discriminate].
  intro H; injection H as <-. exists s. simpl. auto.
Qed.

Lemma check_is_valid_owner k t st c ac :
  check_is_valid k t st c = inr ac -> pk (user ac) = user_id (row ac).
Proof.
  intro H. apply check_is_valid_ok in H as (s & _ & _ & _ & Hu).
  apply USER_get_pk in Hu. exact Hu.
Qed.

(** ** Consumption *)

(** The two ways a branch of a view ends: it returned the state it was
    given, or its answer has a status the hypothesis excludes. *)
Ltac state_untouched :=
  let H := fresh in intros H _; injection H as <- _; reflexivity.
Ltac status_excluded :=
  let H := fresh in
  let Hs := fresh in
  intros H Hs; injection H as _ <-; simpl in Hs;
  first [congruence | discriminate Hs].

(** A consumption request that does not answer 200 leaves the state as it
    found it. *)
Lemma ActionVerifyView_post_failure {E : Externals} k env st request st' response :
  ActionVerifyView_post k env st request = (st', response) ->
  status response <> HTTP_200_OK -> st' = st.
Proof.
  unfold ActionVerifyView_post.
  destruct (check_is_valid k (now env) st (GET_code request)) as [err|ac].
  - state_untouched.
  - destruct k; simpl.
    + status_excluded.
    + unfold PasswordResetVerify_handle_request.
      destruct (PasswordResetVerifiedSerializer_is_valid (data request)); simpl.
      * status_excluded.
      * state_untouched.
    + unfold EmailChangeVerify_handle_request.
      destruct (USER_filter_email_first _ st) as [h|].
      * destruct (is_verified h).
        -- state_untouched.
        -- status_excluded.
      * status_excluded.
Qed.

(** After a consumption that answers 200, the table of the consumed kind
    holds a part of its former rows, none of them owned by the user of the
    consumed code. *)
Lemma ActionVerifyView_post_success {E : Externals} k env st request ac st' response :
  check_is_valid k (now env) st (GET_code request) = inr ac ->
  ActionVerifyView_post k env st request = (st', response) ->
  status response = HTTP_200_OK ->
  exists rows,
    (forall r, In r rows -> In r (objects k st)) /\
    objects k st' = filter (fun r => negb (owned_by (pk (user ac)) r)) rows.
Proof.
  unfold ActionVerifyView_post. intros ->.
  destruct k; simpl.
  - intros H _; injection H as <- _.
    exists (signup_codes st). split; [auto|].
    unfold SignupVerify_handle_action_code.
    rewrite (objects_filter_user_delete_same SignupCode).
    unfold send_welcome_email, verify_user.
    rewrite objects_send, objects_User_save. reflexivity.
  - unfold PasswordResetVerify_handle_request.
    destruct (PasswordResetVerifiedSerializer_is_valid (data request)); simpl.
    + intros H _; injection H as <- _.
      exists (password_reset_codes st). split; [auto|].
      unfold PasswordResetVerify_handle_action_code.
      rewrite (objects_filter_user_delete_same PasswordResetCode).
      unfold change_user_password. rewrite objects_User_save. reflexivity.
    + status_excluded.
  - unfold EmailChangeVerify_handle_request.
    destruct (USER_filter_email_first _ st) as [h|].
    + destruct (is_verified h).
      * status_excluded.
      * intros H _; injection H as <- _.
        exists (filter (fun r => negb (owned_by (pk h) r)) (email_change_codes st)).
        split; [intros r Hr; simpl; eapply filter_sublist, Hr|].
        unfold EmailChangeVerify_handle_action_code.
        rewrite (objects_filter_user_delete_same EmailChangeCode).
        unfold change_user_email. rewrite objects_User_save.
        rewrite objects_User_delete. reflexivity.
    + intros H _; injection H as <- _.
      exists (email_change_codes st). split; [auto|].
      unfold EmailChangeVerify_handle_action_code.
      rewrite (objects_filter_user_delete_same EmailChangeCode).
      unfold change_user_email. rewrite objects_User_save. reflexivity.
Qed.

(** C1.  When a consumption request presents a valid code and is answered
    with 200, the consumed row was one of the outstanding codes of its kind
    for its user, and afterwards that user has no outstanding code of that
    kind left: all of them, the consumed one included, are deleted. *)
Theorem consumption_deletes_all_codes_of_the_user {E : Externals}
    k env st request action_code st' response :
  check_is_valid k (now env) st (GET_code request) = inr action_code ->
  ActionVerifyView_post k env st request = (st', response) ->
  status response = HTTP_200_OK ->
  In (row action_code) (codes_of k (pk (user action_code)) st) /\
  codes_of k (pk (user action_code)) st' = [] /\
  (forall r, In r (codes_of k (pk (user action_code)) st) ->
             ~ In r (objects k st')).
Proof.
  intros Hv Hp Hs.
  destruct (ActionVerifyView_post_success _ _ _ _ _ _ _ Hv Hp Hs)
    as (rows & Hsub & Hrows).
  pose proof (check_is_valid_owner _ _ _ _ _ Hv) as Hown.
  apply check_is_valid_ok in Hv as (s & _ & Hfind & _ & _).
  split; [|split].
  - unfold codes_of. apply filter_In. split.
    + apply find_some in Hfind. tauto.
    + unfold owned_by. apply Nat.eqb_eq. congruence.
  - unfold codes_of. rewrite Hrows. apply codes_of_after_delete.
  - intros r Hr Hin. unfold codes_of in Hr. apply filter_In in Hr as [_ Hr].
    rewrite Hrows in Hin. apply filter_In in Hin as [_ Hin].
    rewrite Hr in Hin. discriminate Hin.
Qed.

(** Alice holds two signup codes; consuming "s2" removes both. *)
Lemma consumption_deletes_all_codes_witness :
  List.length (codes_of SignupCode 1 demo_db) = 2 /\
  codes_of SignupCode 1
    (fst (ActionVerifyView_post (E:=lenient) SignupCode demo_env demo_db
            (demo_request "s2"))) = [].
Proof.
  split; [reflexivity|].
  apply (consumption_deletes_all_codes_of_the_user (E:=lenient)
           SignupCode demo_env demo_db (demo_request "s2")
           (mkActionCode (mkCodeRow "s2" 1 5 105 "10.0.0.1" "l" EmptyString) alice)
           _ (mkResponse (success (success_message SignupCode)) HTTP_200_OK));
    reflexivity.
Defined.

(** With unique code strings, the row a lookup finds is the only row with
    that string. *)
Lemma unique_code_row c (rows : list CodeRow) r r' :
  NoDup (map code rows) ->
  find (has_code c) rows = Some r -> In r' rows -> code r' = c -> r' = r.
Proof.
  induction rows as [|x rows IH]; simpl; [tauto|].
  intros Hnd Hfind Hin Hc. inversion Hnd as [|? ? Hnotin Hnd']; subst.
  destruct (has_code (code r') x) eqn:Hx.
  - injection Hfind as ->. destruct Hin as [->|Hin]; [reflexivity|].
    exfalso. apply Hnotin. apply String.eqb_eq in Hx. rewrite Hx.
    apply in_map, Hin.
  - destruct Hin as [->|Hin].
    + unfold has_code in Hx. rewrite String.eqb_refl in Hx. discriminate Hx.
    + apply IH; auto.
Qed.

Lemma find_has_code_none c (rows : list CodeRow) :
  (forall r, In r rows -> code r <> c) -> find (has_code c) rows = None.
Proof.
  intro H. destruct (find (has_code c) rows) as [r|] eqn:Hf; [|reflexivity].
  apply find_some in Hf as [Hin Hc]. apply String.eqb_eq in Hc.
  exfalso. exact (H r Hin Hc).
Qed.

(** C2.  Code strings being unique within their kind, a consumption that
    was answered with 200 leaves a state in which any later consumption
    request presenting the same code string is answered with the 400
    response of an invalid code (cause: not found) and changes nothing. *)
Theorem second_consumption_fails_with_invalid_code {E : Externals}
    k env st request st' response env2 request2 :
  codes_unique k st ->
  ActionVerifyView_post k env st request = (st', response) ->
  status response = HTTP_200_OK ->
  GET_code request2 = GET_code request ->
  ActionVerifyView_post k env2 st' request2
  = (st', invalid_code_response NotFound).
Proof.
  intros Hu Hp Hs Hc.
  destruct (check_is_valid k (now env) st (GET_code request)) as [err|ac] eqn:Hv.
  { exfalso. unfold ActionVerifyView_post in Hp. rewrite Hv in Hp.
    injection Hp as _ <-. discriminate Hs. }
  destruct (ActionVerifyView_post_success _ _ _ _ _ _ _ Hv Hp Hs)
    as (rows & Hsub & Hrows).
  pose proof (check_is_valid_owner _ _ _ _ _ Hv) as Hown.
  apply check_is_valid_ok in Hv as (s & Hget & Hfind & _ & _).
  assert (Hnone : find (has_code s) (objects k st') = None).
  { apply find_has_code_none. intros r Hin Hcode.
    rewrite Hrows in Hin. apply filter_In in Hin as [Hin Hnot].
    assert (r = row ac) as ->.
    { eapply unique_code_row; eauto. }
    unfold owned_by in Hnot. rewrite Hown, Nat.eqb_refl in Hnot.
    discriminate Hnot. }
  unfold ActionVerifyView_post, check_is_valid.
  rewrite Hc, Hget, Hnone. reflexivity.
Qed.

(** Replaying Alice's password-reset code "p1" after it was consumed. *)
Lemma second_consumption_fails_witness :
  let st' := fst (ActionVerifyView_post (E:=lenient) PasswordResetCode demo_env
                    demo_db (demo_request "p1")) in
  ActionVerifyView_post (E:=lenient) PasswordResetCode (mkEnv 60 "other") st'
    (demo_request "p1")
  = (st', mkResponse (detail "Invalid code.") 400).
Proof.
  apply (second_consumption_fails_with_invalid_code (E:=lenient)
           PasswordResetCode demo_env demo_db (demo_request "p1") _
           (mkResponse (success (success_message PasswordResetCode)) HTTP_200_OK)
           (mkEnv 60 "other") (demo_request "p1")).
  - unfold codes_unique; simpl.
    repeat constructor; simpl; intuition discriminate.
  - reflexivity.
  - reflexivity.
  - reflexivity.
Defined.

(** C3.  A request presenting the code string of a stored row whose expiry
    lies before the current time is answered, by the pre-check and by the
    consumption view alike, with the 400 response of an invalid code, the
    state stays as it was, and [check_is_valid] reports the cause
    [Expired], which is not the cause [NotFound]. *)
Theorem expired_code_is_rejected {E : Externals} k env st request c r :
  GET_code request = Some c ->
  find (has_code c) (objects k st) = Some r ->
  (expires_at r < now env)%Z ->
  ActionCodeVerifyView_get k env st request = (st, invalid_code_response Expired) /\
  ActionVerifyView_post k env st request = (st, invalid_code_response Expired) /\
  check_is_valid k (now env) st (GET_code request) = inl (InvalidCode Expired) /\
  InvalidCode Expired <> InvalidCode NotFound.
Proof.
  intros Hc Hf Hexp.
  assert (Hv : check_is_valid k (now env) st (GET_code request)
               = inl (InvalidCode Expired)).
  { unfold check_is_valid. rewrite Hc, Hf.
    apply Z.ltb_lt in Hexp. rewrite Hexp. reflexivity. }
  unfold ActionCodeVerifyView_get, ActionVerifyView_post. rewrite Hv.
  repeat split; discriminate.
Qed.

(** Alice's signup code "s1" expires at 100 and is presented at 101. *)
Lemma expired_code_is_rejected_witness :
  ActionCodeVerifyView_get (E:=lenient) SignupCode (mkEnv 101 "x") demo_db
    (demo_request "s1")
  = (demo_db, mkResponse (detail "Code has expired.") 400) /\
  ActionVerifyView_post (E:=lenient) SignupCode (mkEnv 101 "x") demo_db
    (demo_request "s1")
  = (demo_db, mkResponse (detail "Code has expired.") 400).
Proof.
  destruct (expired_code_is_rejected (E:=lenient) SignupCode (mkEnv 101 "x")
              demo_db (demo_request "s1") "s1"
              (mkCodeRow "s1" 1 0 100 "10.0.0.1" "l" EmptyString)
              eq_refl eq_refl eq_refl) as (H1 & H2 & _).
  split; [exact H1|exact H2].
Defined.

(** ** The pre-check *)

Lemma ActionCodeVerifyView_get_state {E : Externals} k env st request :
  fst (ActionCodeVerifyView_get k env st request) = st.
Proof.
  unfold ActionCodeVerifyView_get.
  destruct (check_is_valid k (now env) st (GET_code request)); reflexivity.
Qed.

Lemma precheck_many_state {E : Externals} k envs st request :
  fst (precheck_many k envs st request) = st.
Proof.
  induction envs as [|env envs IH]; simpl; [reflexivity|].
  pose proof (ActionCodeVerifyView_get_state k env st request) as Hg.
  destruct (ActionCodeVerifyView_get k env st request) as [st1 r].
  simpl in Hg; subst st1.
  destruct (precheck_many k envs st request) as [st2 rs]. exact IH.
Qed.

(** A code that is valid at one time is valid at every time up to its
    expiry. *)
Lemma check_is_valid_until_expiry k t st c ac t' :
  check_is_valid k t st c = inr ac ->
  (t' <= expires_at (row ac))%Z ->
  check_is_valid k t' st c = inr ac.
Proof.
  intros Hv Ht. pose proof Hv as Hv'.
  apply check_is_valid_ok in Hv as (s & -> & Hf & _ & Hu).
  unfold check_is_valid. rewrite Hf.
  destruct (Z.ltb_spec (expires_at (row ac)) t') as [Hlt|_]; [lia|].
  rewrite Hu. destruct ac; reflexivity.
Qed.

(** C4.  The pre-check never changes the state, whatever code is presented
    and however often it is called; and when the presented code is valid,
    any sequence of pre-checks made no later than its expiry is answered
    with the same 200 response every time. *)
Theorem precheck_is_read_only_and_repeatable {E : Externals}
    k env st request action_code envs :
  check_is_valid k (now env) st (GET_code request) = inr action_code ->
  Forall (fun e => (now e <= expires_at (row action_code))%Z) envs ->
  (forall k' envs' st0 request', fst (precheck_many k' envs' st0 request') = st0) /\
  status (snd (ActionCodeVerifyView_get k env st request)) = HTTP_200_OK /\
  precheck_many k envs st request
  = (st, repeat (snd (ActionCodeVerifyView_get k env st request))
                (List.length envs)).
Proof.
  intros Hv Hall. split; [intros; apply precheck_many_state|].
  split.
  { unfold ActionCodeVerifyView_get. rewrite Hv. reflexivity. }
  induction Hall as [|e envs He Hall IH]; simpl; [reflexivity|].
  assert (Hg : ActionCodeVerifyView_get k e st request
               = (st, snd (ActionCodeVerifyView_get k env st request))).
  { unfold ActionCodeVerifyView_get.
    rewrite (check_is_valid_until_expiry _ _ _ _ _ _ Hv He), Hv. reflexivity. }
  rewrite Hg, IH. reflexivity.
Qed.

(** Three pre-checks of Alice's email-change code "e1" at times 50, 70
    and 100 (its expiry). *)
Lemma precheck_is_read_only_witness :
  precheck_many (E:=lenient) EmailChangeCode
    [mkEnv 50 "a"; mkEnv 70 "b"; mkEnv 100 "c"] demo_db (demo_request "e1")
  = (demo_db,
     repeat (mkResponse
               (success "The given `code` parameter is valid, can proceed to email change.")
               200) 3).
Proof.
  apply (precheck_is_read_only_and_repeatable (E:=lenient) EmailChangeCode
           demo_env demo_db (demo_request "e1")
           (mkActionCode (mkCodeRow "e1" 1 0 100 "10.0.0.1" "l" "bob@example.com")
                         alice)
           [mkEnv 50 "a"; mkEnv 70 "b"; mkEnv 100 "c"]).
  - reflexivity.
  - repeat constructor; simpl; lia.
Defined.

(** ** Email change *)

Lemma USER_get_objects_filter_user_delete k u p st :
  USER_get p (objects_filter_user_delete k u st) = USER_get p st.
Proof.
  unfold USER_get, objects_filter_user_delete. rewrite users_set_objects.
  reflexivity.
Qed.

(** C5.  A valid email-change code is consumed while a user other than
    the requester holds the candidate address (addresses being unique).
    If that user is verified, the answer is the 400 "Email address already
    taken." and the state, the requester's email with it, is unchanged.  If
    that user is unverified, the answer is 200, no row is stored under the
    holder's key any more, and the row stored under the requester's key has
    the candidate address as its email while its key, password and flags
    are the requester's.  A consumption request that is not answered with
    200 never changes the state, so the deletion and the update happen both
    or not at all. *)
Theorem email_change_consumption_rechecks_the_address {E : Externals}
    env st request action_code holder :
  emails_unique st ->
  check_is_valid EmailChangeCode (now env) st (GET_code request)
    = inr action_code ->
  In holder (users st) ->
  email holder = new_email (row action_code) ->
  pk holder <> pk (user action_code) ->
  (if is_verified holder
   then ActionVerifyView_post EmailChangeCode env st request
        = (st, mkResponse (detail email_taken) HTTP_400_BAD_REQUEST)
   else exists st' u,
        ActionVerifyView_post EmailChangeCode env st request
        = (st', mkResponse (success (success_message EmailChangeCode))
                           HTTP_200_OK) /\
        USER_get (pk holder) st' = None /\
        USER_get (pk (user action_code)) st' = Some u /\
        email u = new_email (row action_code) /\
        pk u = pk (user action_code) /\
        password u = password (user action_code) /\
        is_verified u = is_verified (user action_code) /\
        is_active u = is_active (user action_code) /\
        u = with_email (new_email (row action_code)) (user action_code)) /\
  USER_get (pk (user action_code)) st = Some (user action_code) /\
  (forall env2 request2 st2 response2,
     ActionVerifyView_post EmailChangeCode env2 st request2 = (st2, response2) ->
     status response2 <> HTTP_200_OK -> st2 = st).
Proof.
  intros Hu Hv Hin He Hne.
  split; [|split].
  - unfold ActionVerifyView_post. rewrite Hv. simpl.
    unfold EmailChangeVerify_handle_request.
    rewrite (first_by_email _ _ holder Hu Hin He).
    destruct (is_verified holder); [reflexivity|].
    eexists. exists (with_email (new_email (row action_code)) (user action_code)).
    split; [reflexivity|].
    unfold EmailChangeVerify_handle_action_code, change_user_email.
    rewrite !USER_get_objects_filter_user_delete. split; [|split].
    + rewrite USER_get_save_other by exact Hne.
      apply USER_get_delete_same.
    + apply (USER_get_save (with_email (new_email (row action_code))
                                       (user action_code))).
    + repeat split.
  - pose proof (check_is_valid_owner _ _ _ _ _ Hv) as Hown.
    apply check_is_valid_ok in Hv as (s & _ & _ & _ & Hget).
    rewrite Hown. exact Hget.
  - intros env2 request2 st2 response2. apply ActionVerifyView_post_failure.
Qed.

(** Alice consumes "e1", which asks for the address of the unverified
    Bob: Bob's account is deleted and Alice's address becomes Bob's. *)
Lemma email_change_consumption_witness :
  exists st' u,
    ActionVerifyView_post (E:=lenient) EmailChangeCode demo_env demo_db
      (demo_request "e1")
    = (st', mkResponse (success "Email address has been changed.") 200) /\
    USER_get 2 st' = None /\
    USER_get 1 st' = Some u /\
    email u = "bob@example.com".
Proof.
  destruct (email_change_consumption_rechecks_the_address (E:=lenient)
              demo_env demo_db (demo_request "e1")
              (mkActionCode (mkCodeRow "e1" 1 0 100 "10.0.0.1" "l" "bob@example.com")
                            alice)
              bob) as [(st' & u & Hp & Hh & Hr & He & _) _].
  - unfold emails_unique; simpl.
    repeat constructor; simpl; intuition discriminate.
  - reflexivity.
  - simpl; tauto.
  - reflexivity.
  - simpl; lia.
  - exists st', u. repeat split; assumption.
Defined.

(** C5, as the claim words it, fails when the unverified holder of the
    candidate address is the requester himself: Dan, unverified, consumes
    a code for the address he already has.  The answer is 200, and a row
    is still stored under Dan's key afterwards: the account has not been
    deleted. *)
Lemma email_change_by_the_holder_keeps_the_account :
  In dan (users self_db) /\
  is_verified dan = false /\
  check_is_valid EmailChangeCode (now demo_env) self_db (Some "e7")
  = inr (mkActionCode (mkCodeRow "e7" 4 0 100 "10.0.0.4" "l" "dan@example.com")
                      dan) /\
  email dan = "dan@example.com" /\
  status (snd (ActionVerifyView_post (E:=lenient) EmailChangeCode demo_env
                 self_db (demo_request "e7"))) = HTTP_200_OK /\
  USER_get (pk dan)
    (fst (ActionVerifyView_post (E:=lenient) EmailChangeCode demo_env self_db
            (demo_request "e7")))
  <> None.
Proof.
  repeat split; try reflexivity.
  - simpl. tauto.
  - discriminate.
Qed.

(** ** Issuance *)

Lemma existsb_first_by_email (f : User -> bool) e st :
  emails_unique st ->
  existsb (fun u => has_email e u && f u) (users st)
  = match USER_filter_email_first e st with
    | Some u => f u
    | None => false
    end.
Proof.
  intro Hu.
  destruct (USER_filter_email_first e st) as [u|] eqn:Hf.
  - apply first_by_email_holds in Hf as Hh. destruct Hh as [Hin He].
    destruct (f u) eqn:Hfu.
    + apply existsb_exists. exists u. split; [exact Hin|].
      unfold has_email. rewrite He, String.eqb_refl, Hfu. reflexivity.
    + destruct (existsb _ (users st)) eqn:Hex; [|reflexivity].
      apply existsb_exists in Hex as (v & Hv & Hfv).
      apply andb_true_iff in Hfv as [Hev Hfv].
      apply String.eqb_eq in Hev.
      rewrite (first_by_email e st v Hu Hv Hev) in Hf.
      injection Hf as ->. congruence.
  - destruct (existsb _ (users st)) eqn:Hex; [|reflexivity].
    apply existsb_exists in Hex as (v & Hv & Hfv).
    apply andb_true_iff in Hfv as [Hev _]. apply String.eqb_eq in Hev.
    exfalso. exact (first_by_email_none e st v Hf Hv Hev).
Qed.

Lemma issued_by_create_and_send {E : Externals} k env u ip lnk addr st :
  issued k env u (match k with EmailChangeCode => addr | _ => email u end) st
    (send_email k (snd (objects_create k env u ip lnk addr st)) u
                (fst (objects_create k env u ip lnk addr st))).
Proof.
  unfold issued, objects_create, send_email. simpl.
  eexists. rewrite objects_send, objects_set_objects.
  split; [reflexivity|]. simpl. repeat split.
  unfold send; simpl. rewrite outbox_set_objects.
  destruct k; reflexivity.
Qed.

Lemma not_issued_same_state {E : Externals} k env u addr st :
  ~ issued k env u addr st st.
Proof.
  intros (r & Hr & _). apply (f_equal (@List.length CodeRow)) in Hr.
  rewrite length_app in Hr. simpl in Hr. lia.
Qed.

(** C6.  For a request the serializer accepts, addresses being unique:
    the password-reset view creates a code for a user and hands it to the
    e-mail sender exactly when some user with the given address is verified
    and active; in every other case the state is untouched and the answer
    is one and the same 400 "Password reset not allowed.", whether the
    address is unknown, unverified or inactive. *)
Theorem password_reset_issuance_only_for_verified_active {E : Externals}
    env st request :
  emails_unique st ->
  PasswordResetSerializer_is_valid (data request) = true ->
  ((exists u, issued PasswordResetCode env u (email u) st
                (fst (PasswordReset_post env st request)))
   <-> may_reset_password (d_email (data request)) st = true) /\
  (may_reset_password (d_email (data request)) st = true ->
   exists u, In u (users st) /\ email u = d_email (data request) /\
     issued PasswordResetCode env u (email u) st
       (fst (PasswordReset_post env st request)) /\
     status (snd (PasswordReset_post env st request)) = HTTP_201_CREATED) /\
  (may_reset_password (d_email (data request)) st = false ->
   PasswordReset_post env st request
   = (st, mkResponse (detail reset_not_allowed) HTTP_400_BAD_REQUEST)).
Proof.
  intros Hu Hvalid.
  assert (Hyes : may_reset_password (d_email (data request)) st = true ->
     exists u, In u (users st) /\ email u = d_email (data request) /\
       issued PasswordResetCode env u (email u) st
         (fst (PasswordReset_post env st request)) /\
       status (snd (PasswordReset_post env st request)) = HTTP_201_CREATED).
  { unfold may_reset_password. rewrite existsb_first_by_email by exact Hu.
    unfold PasswordReset_post. rewrite Hvalid. simpl.
    destruct (USER_filter_email_first _ st) as [u|] eqn:Hf; [|discriminate].
    intros ->. apply first_by_email_holds in Hf as [Hin He].
    exists u. repeat split; auto.
    apply (issued_by_create_and_send PasswordResetCode). }
  assert (Hno : may_reset_password (d_email (data request)) st = false ->
     PasswordReset_post env st request
     = (st, mkResponse (detail reset_not_allowed) HTTP_400_BAD_REQUEST)).
  { unfold may_reset_password. rewrite existsb_first_by_email by exact Hu.
    unfold PasswordReset_post. rewrite Hvalid. simpl.
    destruct (USER_filter_email_first _ st) as [u|]; [|reflexivity].
    intros ->. reflexivity. }
  split; [|split; assumption].
  split.
  - intros (u & Hi).
    destruct (may_reset_password (d_email (data request)) st) eqn:Hm;
      [reflexivity|].
    rewrite (Hno eq_refl) in Hi. simpl in Hi.
    exfalso. exact (not_issued_same_state _ _ _ _ _ Hi).
  - intro Hm. destruct (Hyes Hm) as (u & _ & _ & Hi & _). exists u. exact Hi.
Qed.

(** Carol (verified, active) gets a code; the unverified Bob and the
    unknown Dave get the same refusal. *)
Lemma password_reset_issuance_witness :
  let ask := fun e =>
    mkRequest None (mkData e EmptyString EmptyString EmptyString EmptyString None)
              alice None in
  status (snd (PasswordReset_post (E:=lenient) demo_env demo_db
                 (ask "carol@example.com"))) = 201 /\
  PasswordReset_post (E:=lenient) demo_env demo_db (ask "bob@example.com")
  = (demo_db, mkResponse (detail "Password reset not allowed.") 400) /\
  PasswordReset_post (E:=lenient) demo_env demo_db (ask "dave@example.com")
  = (demo_db, mkResponse (detail "Password reset not allowed.") 400).
Proof.
  assert (Hu : emails_unique demo_db).
  { unfold emails_unique; simpl.
    repeat constructor; simpl; intuition discriminate. }
  intro ask. split; [|split].
  - destruct (password_reset_issuance_only_for_verified_active (E:=lenient)
                demo_env demo_db (ask "carol@example.com") Hu eq_refl)
      as (_ & Hyes & _).
    destruct (Hyes eq_refl) as (u & _ & _ & _ & Hs). exact Hs.
  - apply (password_reset_issuance_only_for_verified_active (E:=lenient)
             demo_env demo_db (ask "bob@example.com") Hu eq_refl).
    reflexivity.
  - apply (password_reset_issuance_only_for_verified_active (E:=lenient)
             demo_env demo_db (ask "dave@example.com") Hu eq_refl).
    reflexivity.
Defined.

Lemma issued_transport {E : Externals} k env u addr st0 st st' :
  objects k st0 = objects k st -> outbox st0 = outbox st ->
  issued k env u addr st st' -> issued k env u addr st0 st'.
Proof.
  intros Ho Hb (r & H1 & H2 & H3 & H4 & H5).
  exists r. rewrite Ho, Hb. auto.
Qed.

(** What [Signup.post] does once both serializers have accepted the
    request and [check_verified_users] has returned the stub [u] in the
    state [st1]. *)
Lemma Signup_post_issues {E : Externals} env st st1 request u :
  objects SignupCode st1 = objects SignupCode st ->
  outbox st1 = outbox st ->
  is_verified u = false ->
  let u' := snd (UserSerializer_save u (data request) st1) in
  let st2 := fst (UserSerializer_save u (data request) st1) in
  let created :=
    objects_create SignupCode env u'
      (py_or (client_ip request) unknown_ip)
      (py_or (d_link (data request)) EmptyString) EmptyString st2 in
  let st' := send_email SignupCode (snd created) u' (fst created) in
  pk u' = pk u /\ email u' = email u /\ is_verified u' = false /\
  first_name u' = d_first_name (data request) /\
  last_name u' = d_last_name (data request) /\
  USER_get (pk u') st' = Some u' /\
  issued SignupCode env u' (email u') st st'.
Proof.
  intros Ho Hb Hver u' st2 created st'.
  repeat split; try assumption.
  - exact (USER_get_save u' st1).
  - apply (issued_transport _ _ _ _ st st2).
    + unfold st2. simpl. rewrite (objects_User_save SignupCode).
      symmetry. exact Ho.
    + unfold st2. simpl. rewrite outbox_User_save. symmetry. exact Hb.
    + exact (issued_by_create_and_send SignupCode env u'
               (py_or (client_ip request) unknown_ip)
               (py_or (d_link (data request)) EmptyString) EmptyString st2).
Qed.

(** C7.  For a request the signup serializer accepts, addresses being
    unique: when some verified user owns the requested address, the signup
    view answers 400 "Email address already taken." and the state is
    untouched, so no signup code exists that did not before; when no
    verified user owns it and the user serializer accepts the stub, the
    answer is 201, the stub (created, or the unverified owner updated) is
    stored with the profile data of the request, one signup code for it is
    created and handed to the e-mail sender. *)
Theorem signup_issuance_refuses_verified_owner {E : Externals}
    env st request :
  emails_unique st ->
  SignupSerializer_is_valid (data request) = true ->
  (verified_owner (d_email (data request)) st = true ->
   Signup_post env st request
   = (st, mkResponse (detail email_taken) HTTP_400_BAD_REQUEST)) /\
  (verified_owner (d_email (data request)) st = false ->
   UserSerializer_is_valid (signup_stub (d_email (data request)) st)
                           (data request) = true ->
   exists u,
     pk u = pk (signup_stub (d_email (data request)) st) /\
     email u = d_email (data request) /\
     is_verified u = false /\
     first_name u = d_first_name (data request) /\
     last_name u = d_last_name (data request) /\
     USER_get (pk u) (fst (Signup_post env st request)) = Some u /\
     issued SignupCode env u (email u) st (fst (Signup_post env st request)) /\
     snd (Signup_post env st request)
     = mkResponse (serializer_data u) HTTP_201_CREATED).
Proof.
  intros Hu Hvalid.
  unfold verified_owner. rewrite existsb_first_by_email by exact Hu.
  unfold Signup_post, signup_stub, check_verified_users, USER_get_or_create.
  rewrite Hvalid. simpl.
  destruct (USER_filter_email_first (d_email (data request)) st) as [u0|] eqn:Hf.
  - simpl. split.
    + intros ->. reflexivity.
    + intros Hver Hok. rewrite Hver, Hok. simpl.
      apply first_by_email_holds in Hf as [_ He].
      destruct (Signup_post_issues env st st request u0 eq_refl eq_refl Hver)
        as (H1 & H2 & H3 & H4 & H5 & H6 & H7).
      exists (snd (UserSerializer_save u0 (data request) st)).
      repeat split; assumption.
  - simpl. split; [discriminate|].
    intros _ Hok. rewrite Hok. simpl.
    set (stub := mkUser (next_pk st) _ _ _ _ _ _) in *.
    destruct (Signup_post_issues env st (set_users (users st ++ [stub]) st)
                request stub eq_refl eq_refl eq_refl)
      as (H1 & H2 & H3 & H4 & H5 & H6 & H7).
    exists (snd (UserSerializer_save stub (data request)
                   (set_users (users st ++ [stub]) st))).
    repeat split; assumption.
Qed.

(** Signing up with Carol's address is refused; signing up with the
    unowned address of Dave is answered with 201. *)
Lemma signup_issuance_witness :
  Signup_post (E:=lenient) demo_env demo_db
    (mkRequest None
       (mkData "carol@example.com" "pw" EmptyString "C" "C" None) alice None)
  = (demo_db, mkResponse (detail "Email address already taken.") 400) /\
  status (snd (Signup_post (E:=lenient) demo_env demo_db (demo_request "x")))
  = 201.
Proof.
  assert (Hu : emails_unique demo_db).
  { unfold emails_unique; simpl.
    repeat constructor; simpl; intuition discriminate. }
  split.
  - apply (signup_issuance_refuses_verified_owner (E:=lenient) demo_env demo_db
             _ Hu eq_refl).
    reflexivity.
  - destruct (signup_issuance_refuses_verified_owner (E:=lenient) demo_env
                demo_db (demo_request "x") Hu eq_refl) as [_ H].
    destruct (H eq_refl eq_refl) as (u & _ & _ & _ & _ & _ & _ & _ & Hr).
    rewrite Hr. reflexivity.
Defined.

(** ** Password change *)

(** Saving a user whose [is_active] flag is the stored one does not change
    which user keys are active. *)
Lemma is_active_after_save u u' p st :
  USER_get (pk u) st = Some u -> pk u' = pk u -> is_active u' = is_active u ->
  match USER_get p (User_save u' st) with
  | Some v => is_active v
  | None => false
  end
  = match USER_get p st with
    | Some v => is_active v
    | None => false
    end.
Proof.
  intros Hget Hpk Hact.
  destruct (Nat.eq_dec p (pk u')) as [->|Hne].
  - rewrite USER_get_save, Hpk, Hget. exact Hact.
  - rewrite USER_get_save_other by exact Hne. reflexivity.
Qed.

Lemma token_valid_after_save u u' st s :
  USER_get (pk u) st = Some u -> pk u' = pk u -> is_active u' = is_active u ->
  token_valid (User_save u' st) s = token_valid st s.
Proof.
  intros Hget Hpk Hact. unfold token_valid. rewrite tokens_User_save.
  induction (tokens st) as [|t ts IH]; simpl; [reflexivity|].
  rewrite IH, (is_active_after_save u u' _ st Hget Hpk Hact). reflexivity.
Qed.

(** C10.  When the authenticated user (a row of the user table) presents
    a request the serializer accepts and a current password that matches,
    the password-change view answers 200; the row then stored under the
    caller's key has the hash of the new password as its password, which
    [check_password] accepts for the new password, and the caller's key,
    email and flags; the token table is exactly what it was, and every
    bearer token is accepted afterwards if and only if it was accepted
    before. *)
Theorem password_change_leaves_tokens_untouched {E : Externals} st request :
  USER_get (pk (request_user request)) st = Some (request_user request) ->
  PasswordChangeSerializer_is_valid (data request) = true ->
  check_password (request_user request) (d_password (data request)) = true ->
  snd (PasswordChange_post st request)
  = mkResponse (success "Password has been changed.") HTTP_200_OK /\
  USER_get (pk (request_user request)) (fst (PasswordChange_post st request))
  = Some (set_password (d_new_password (data request)) (request_user request)) /\
  (exists u,
     USER_get (pk (request_user request)) (fst (PasswordChange_post st request))
     = Some u /\
     password u = make_password (d_new_password (data request)) /\
     check_password u (d_new_password (data request)) = true /\
     pk u = pk (request_user request) /\
     email u = email (request_user request) /\
     is_verified u = is_verified (request_user request) /\
     is_active u = is_active (request_user request)) /\
  tokens (fst (PasswordChange_post st request)) = tokens st /\
  (forall s, token_valid (fst (PasswordChange_post st request)) s
             = token_valid st s).
Proof.
  intros Hget Hvalid Hpw. unfold PasswordChange_post.
  rewrite Hvalid, Hpw. simpl.
  split; [reflexivity|]. split; [|split; [|split]].
  - apply (USER_get_save (set_password _ (request_user request))).
  - exists (set_password (d_new_password (data request)) (request_user request)).
    split; [apply (USER_get_save (set_password _ (request_user request)))|].
    split; [reflexivity|]. split; [|repeat split].
    unfold check_password. simpl. apply String.eqb_refl.
  - apply tokens_User_save.
  - intro s. apply (token_valid_after_save (request_user request)); auto.
Qed.

(** Alice changes her password from "old" to "Str0ngP@ss"; her token
    stays valid. *)
Lemma password_change_witness :
  (exists u,
     USER_get 1 (fst (PasswordChange_post (E:=lenient) demo_db (demo_request "x")))
     = Some u /\
     password u = "Str0ngP@ss") /\
  tokens (fst (PasswordChange_post (E:=lenient) demo_db (demo_request "x")))
  = [mkToken "tok-alice" 1] /\
  token_valid (fst (PasswordChange_post (E:=lenient) demo_db (demo_request "x")))
              "tok-alice" = true.
Proof.
  destruct (password_change_leaves_tokens_untouched (E:=lenient) demo_db
              (demo_request "x") eq_refl eq_refl eq_refl)
    as (_ & _ & (u & Hu & Hp & _) & Ht & Hv).
  split; [exists u; split; [exact Hu|exact Hp]|].
  split; [exact Ht|]. rewrite Hv. reflexivity.
Defined.

(** ** Failure paths *)

Lemma PasswordReset_post_failure {E : Externals} env st request st' response :
  PasswordReset_post env st request = (st', response) ->
  status response = HTTP_400_BAD_REQUEST -> st' = st.
Proof.
  unfold PasswordReset_post.
  destruct (PasswordResetSerializer_is_valid (data request)); simpl.
  - destruct (USER_filter_email_first _ st) as [u|].
    + destruct (is_verified u && is_active u).
      * status_excluded.
      * state_untouched.
    + state_untouched.
  - state_untouched.
Qed.

Lemma EmailChange_post_failure {E : Externals} env st request st' response :
  EmailChange_post env st request = (st', response) ->
  status response = HTTP_400_BAD_REQUEST -> st' = st.
Proof.
  unfold EmailChange_post.
  destruct (EmailChangeSerializer_is_valid (data request)); simpl.
  - destruct (match USER_filter_email_first _ st with
              | Some u => is_verified u | None => false end).
    + state_untouched.
    + status_excluded.
  - state_untouched.
Qed.

Lemma PasswordChange_post_failure {E : Externals} st request st' response :
  PasswordChange_post st request = (st', response) ->
  status response = HTTP_400_BAD_REQUEST -> st' = st.
Proof.
  unfold PasswordChange_post.
  destruct (PasswordChangeSerializer_is_valid (data request)); simpl.
  - destruct (check_password _ _); simpl.
    + status_excluded.
    + state_untouched.
  - state_untouched.
Qed.

(** ** Login and logout *)

Lemma find_app_none {A} (f : A -> bool) (l : list A) (x : A) :
  find f l = None -> f x = true -> find f (l ++ [x]) = Some x.
Proof.
  induction l as [|y l IH]; simpl; intros Hn Hx.
  - rewrite Hx. reflexivity.
  - destruct (f y); [discriminate|]. apply IH; assumption.
Qed.

Lemma Token_get_or_create_result generated u st :
  let '(st', t, _) := Token_get_or_create generated u st in
  token_user t = pk u /\ In t (tokens st') /\
  find (token_of (pk u)) (tokens st') = Some t /\
  users st' = users st /\
  (forall k, objects k st' = objects k st) /\ outbox st' = outbox st.
Proof.
  unfold Token_get_or_create.
  destruct (find (token_of (pk u)) (tokens st)) as [t|] eqn:Hf.
  - pose proof (find_some _ _ Hf) as [Hin Ht].
    apply Nat.eqb_eq in Ht. repeat split; auto.
  - simpl. split; [reflexivity|]. split; [|split; [|split; [|split]]].
    + apply in_or_app. right. left. reflexivity.
    + apply find_app_none; [exact Hf|]. unfold token_of. simpl.
      apply Nat.eqb_refl.
    + reflexivity.
    + intro k; destruct k; reflexivity.
    + reflexivity.
Qed.

(** What a login that answers 200 has done. *)
Lemma Login_post_success {C : Credentials} generated st request st' response :
  Login_post generated st request = (st', response) ->
  login_status response = HTTP_200_OK ->
  exists u,
    authenticate_user st (data request) = Some u /\
    LoginSerializer_is_valid (data request) = true /\
    is_verified u = true /\ is_active u = true /\
    (st', response)
    = (fst (fst (Token_get_or_create generated u st)),
       mkLoginResponse
         (token (key (snd (fst (Token_get_or_create generated u st)))))
         HTTP_200_OK).
Proof.
  unfold Login_post.
  destruct (LoginSerializer_is_valid (data request)); simpl;
    [|intros H Hs; injection H as _ <-; discriminate Hs].
  destruct (authenticate_user st (data request)) as [u|];
    [|intros H Hs; injection H as _ <-; discriminate Hs].
  destruct (is_verified u) eqn:Hv; simpl;
    [|intros H Hs; injection H as _ <-; discriminate Hs].
  destruct (is_active u) eqn:Hact; simpl;
    [|intros H Hs; injection H as _ <-; discriminate Hs].
  intros H _. exists u.
  split; [reflexivity|]. split; [reflexivity|].
  split; [exact Hv|]. split; [exact Hact|].
  destruct (Token_get_or_create generated u st) as [[st1 t] c].
  symmetry. exact H.
Qed.

Lemma Login_post_failure {C : Credentials} generated st request st' response :
  Login_post generated st request = (st', response) ->
  login_status response <> HTTP_200_OK -> st' = st.
Proof.
  unfold Login_post.
  destruct (LoginSerializer_is_valid (data request)); simpl;
    [|state_untouched].
  destruct (authenticate_user st (data request)) as [u|]; [|state_untouched].
  destruct (is_verified u); simpl; [|state_untouched].
  destruct (is_active u); simpl; [|state_untouched].
  destruct (Token_get_or_create generated u st) as [[st1 t] c].
  intros H Hs; injection H as _ <-. simpl in Hs. congruence.
Qed.

(** X1.  Whatever the authentication backend, a login that is answered
    with 200 was made for a user the backend returned who is verified and
    active; the answer carries the key of a stored token of that user, and
    the login changed nothing but the token table.  A login answered
    otherwise changed nothing at all. *)
Theorem login_gives_a_token_only_to_verified_active_users {C : Credentials}
    generated st request st' response :
  Login_post generated st request = (st', response) ->
  (login_status response = HTTP_200_OK ->
   exists u t,
     authenticate_user st (data request) = Some u /\
     is_verified u = true /\ is_active u = true /\
     In t (tokens st') /\ token_user t = pk u /\
     login_body response = token (key t) /\
     users st' = users st /\ (forall k, objects k st' = objects k st) /\
     outbox st' = outbox st) /\
  (login_status response <> HTTP_200_OK -> st' = st).
Proof.
  intro Hp. split; [|apply (Login_post_failure _ _ _ _ _ Hp)].
  intro Hs.
  destruct (Login_post_success _ _ _ _ _ Hp Hs) as (u & Ha & _ & Hv & Hact & Heq).
  pose proof (Token_get_or_create_result generated u st) as Hr.
  destruct (Token_get_or_create generated u st) as [[st1 t] c].
  simpl in Heq. injection Heq as -> ->.
  destruct Hr as (H1 & H2 & _ & H4 & H5 & H6).
  exists u, t. repeat split; auto.
Qed.

(** Alice logs in and gets her stored token; the unverified Bob is
    refused and nothing changes. *)
Lemma login_gives_a_token_witness :
  Login_post (C:=by_password) "new" demo_db
    (login_request "alice@example.com" "old" alice)
  = (demo_db, mkLoginResponse (token "tok-alice") 200) /\
  fst (Login_post (C:=by_password) "new" demo_db
         (login_request "bob@example.com" "pw" bob)) = demo_db.
Proof.
  split; [reflexivity|].
  apply (login_gives_a_token_only_to_verified_active_users (C:=by_password)
           "new" demo_db (login_request "bob@example.com" "pw" bob) _
           (mkLoginResponse (plain (detail "User account not verified.")) 401)
           eq_refl).
  simpl. discriminate.
Defined.

(** X2.  A login answered with 200 can be repeated: made again on the
    state it left, with whatever key the generator would draw, it gives the
    same answer with the same token and leaves that state as it is, so no
    second token is minted. *)
Theorem login_twice_returns_the_same_token {C : Credentials}
    generated st request st' response generated2 :
  Login_post generated st request = (st', response) ->
  login_status response = HTTP_200_OK ->
  Login_post generated2 st' request = (st', response).
Proof.
  intros Hp Hs.
  destruct (Login_post_success _ _ _ _ _ Hp Hs)
    as (u & Ha & Hok & Hv & Hact & Heq).
  pose proof (Token_get_or_create_result generated u st) as Hr.
  destruct (Token_get_or_create generated u st) as [[st1 t] c].
  simpl in Heq. injection Heq as -> ->.
  destruct Hr as (_ & _ & Hfind & Hus & _ & _).
  unfold Login_post, authenticate_user. rewrite Hok, Hus.
  unfold authenticate_user in Ha. rewrite Ha, Hv, Hact. simpl.
  unfold Token_get_or_create. rewrite Hfind. reflexivity.
Qed.

(** Carol has no token yet: her first login mints "k1", her second one
    returns "k1" again although the generator would draw "k2". *)
Lemma login_twice_witness :
  let st1 := fst (Login_post (C:=by_password) "k1" demo_db
                    (login_request "carol@example.com" "pw3" carol)) in
  Login_post (C:=by_password) "k2" st1
    (login_request "carol@example.com" "pw3" carol)
  = (st1, mkLoginResponse (token "k1") 200).
Proof.
  apply (login_twice_returns_the_same_token (C:=by_password) "k1" demo_db
           (login_request "carol@example.com" "pw3" carol) _
           (mkLoginResponse (token "k1") 200) "k2");
    reflexivity.
Defined.

Lemma NoDup_map_same {A B} (f : A -> B) (l : list A) (a b : A) :
  NoDup (map f l) -> In a l -> In b l -> f a = f b -> a = b.
Proof.
  induction l as [|x l IH]; simpl; [tauto|].
  intros Hnd Ha Hb Hf. inversion Hnd as [|? ? Hnotin Hnd']; subst.
  destruct Ha as [->|Ha], Hb as [->|Hb]; auto.
  - exfalso. apply Hnotin. rewrite Hf. apply in_map, Hb.
  - exfalso. apply Hnotin. rewrite <- Hf. apply in_map, Ha.
Qed.

Lemma existsb_false_iff {A} (f : A -> bool) (l : list A) :
  existsb f l = false <-> (forall x, In x l -> f x = false).
Proof.
  split.
  - intros H x Hx. destruct (f x) eqn:Hfx; [|reflexivity].
    assert (existsb f l = true) by (apply existsb_exists; eauto). congruence.
  - intro H. destruct (existsb f l) eqn:He; [|reflexivity].
    apply existsb_exists in He as (x & Hx & Hfx). rewrite (H x Hx) in Hfx.
    discriminate Hfx.
Qed.

(** A key that belongs to one of the caller's tokens, keys being unique,
    is rejected once the caller's tokens are deleted. *)
Lemma token_valid_after_logout_mine st request t :
  keys_unique st -> In t (tokens st) ->
  token_user t = pk (request_user request) ->
  token_valid (fst (Logout_post st request)) (key t) = false.
Proof.
  intros Hu Hin Hmine. unfold token_valid, Logout_post. simpl.
  apply existsb_false_iff. intros t' Hin'.
  apply filter_In in Hin' as [Hin' Hnot].
  destruct (String.eqb_spec (key t') (key t)) as [Hk|Hk]; [|reflexivity].
  exfalso. assert (t' = t) as -> by (eapply NoDup_map_same; eauto).
  rewrite Hmine, Nat.eqb_refl in Hnot. discriminate Hnot.
Qed.

(** A key that belongs to none of the caller's tokens is accepted after
    the logout exactly when it was before. *)
Lemma token_valid_after_logout_other st request s :
  (forall t, In t (tokens st) -> key t = s ->
             token_user t <> pk (request_user request)) ->
  token_valid (fst (Logout_post st request)) s = token_valid st s.
Proof.
  unfold token_valid, Logout_post. simpl. unfold USER_get. simpl.
  induction (tokens st) as [|t ts IH]; simpl; intro H; [reflexivity|].
  assert (IH' : forall t0, In t0 ts -> key t0 = s ->
                           token_user t0 <> pk (request_user request)).
  { intros t0 Ht0. apply H. right. exact Ht0. }
  destruct (Nat.eqb_spec (token_user t) (pk (request_user request))) as [He|He];
    simpl.
  - destruct (String.eqb_spec (key t) s) as [Hk|Hk].
    + exfalso. exact (H t (or_introl eq_refl) Hk He).
    + simpl. apply IH, IH'.
  - rewrite (IH IH'). reflexivity.
Qed.

(** X3.  Token keys being unique, after a logout every token the caller
    held is rejected, every token of another user is still stored and is
    accepted exactly when it was before, and users, codes and outbox are
    what they were; the answer is always 200. *)
Theorem logout_rejects_exactly_the_callers_tokens st request :
  keys_unique st ->
  (forall t, In t (tokens st) -> token_user t = pk (request_user request) ->
     token_valid (fst (Logout_post st request)) (key t) = false) /\
  (forall t, In t (tokens st) -> token_user t <> pk (request_user request) ->
     In t (tokens (fst (Logout_post st request))) /\
     token_valid (fst (Logout_post st request)) (key t)
     = token_valid st (key t)) /\
  users (fst (Logout_post st request)) = users st /\
  (forall k, objects k (fst (Logout_post st request)) = objects k st) /\
  outbox (fst (Logout_post st request)) = outbox st /\
  status (snd (Logout_post st request)) = HTTP_200_OK.
Proof.
  intro Hu. split; [|split; [|split; [|split; [|split]]]].
  - intros t Hin Hmine. apply token_valid_after_logout_mine; assumption.
  - intros t Hin Hother. split.
    + unfold Logout_post. simpl. apply filter_In. split; [exact Hin|].
      apply negb_true_iff, Nat.eqb_neq, Hother.
    + apply token_valid_after_logout_other. intros t' Hin' Hk.
      assert (t' = t) as -> by (eapply NoDup_map_same; eauto). exact Hother.
  - reflexivity.
  - intro k; destruct k; reflexivity.
  - reflexivity.
  - reflexivity.
Qed.

(** Alice logs out of a state in which Carol holds a token too. *)
Lemma logout_rejects_witness :
  let st := set_tokens [mkToken "tok-alice" 1; mkToken "tok-carol" 3] demo_db in
  token_valid st "tok-alice" = true /\
  token_valid (fst (Logout_post st (demo_request "x"))) "tok-alice" = false /\
  token_valid (fst (Logout_post st (demo_request "x"))) "tok-carol" = true.
Proof.
  intro st.
  assert (Hu : keys_unique st).
  { unfold keys_unique; simpl.
    repeat constructor; simpl; intuition discriminate. }
  destruct (logout_rejects_exactly_the_callers_tokens st (demo_request "x") Hu)
    as (Hmine & Hother & _).
  split; [reflexivity|]. split.
  - apply (Hmine (mkToken "tok-alice" 1)); simpl; auto.
  - destruct (Hother (mkToken "tok-carol" 3)) as [_ Hv];
      [simpl; auto|simpl; lia|].
    exact (eq_trans Hv eq_refl).
Defined.

Lemma NoDup_snoc {A} (l : list A) (x : A) :
  NoDup l -> ~ In x l -> NoDup (l ++ [x]).
Proof.
  induction l as [|y l IH]; simpl; intros Hnd Hx.
  - constructor; [tauto|constructor].
  - inversion Hnd as [|? ? Hy Hnd']; subst. constructor.
    + intro Hin. apply in_app_or in Hin as [Hin|[->|[]]]; tauto.
    + apply IH; tauto.
Qed.

Lemma Token_get_or_create_keys_unique generated u st :
  keys_unique st -> ~ In generated (map key (tokens st)) ->
  keys_unique (fst (fst (Token_get_or_create generated u st))).
Proof.
  unfold keys_unique, Token_get_or_create. intros Hu Hfresh.
  destruct (find (token_of (pk u)) (tokens st)); simpl; [exact Hu|].
  rewrite map_app. simpl. apply NoDup_snoc; assumption.
Qed.

(** X4.  Token keys being unique, the generator drawing an unused key and
    the backend returning a stored user: the token a login hands out is
    accepted on the state the login leaves, and is rejected once that user
    has logged out. *)
Theorem logout_revokes_the_token_of_the_login {C : Credentials}
    generated st request st1 response u request2 :
  keys_unique st ->
  ~ In generated (map key (tokens st)) ->
  Login_post generated st request = (st1, response) ->
  login_status response = HTTP_200_OK ->
  authenticate_user st (data request) = Some u ->
  USER_get (pk u) st = Some u ->
  request_user request2 = u ->
  exists k,
    login_body response = token k /\
    token_valid st1 k = true /\
    token_valid (fst (Logout_post st1 request2)) k = false.
Proof.
  intros Hu Hfresh Hp Hs Ha Hget Hreq.
  destruct (Login_post_success _ _ _ _ _ Hp Hs)
    as (u' & Ha' & _ & _ & Hact & Heq).
  rewrite Ha in Ha'. injection Ha' as <-.
  pose proof (Token_get_or_create_result generated u st) as Hr.
  pose proof (Token_get_or_create_keys_unique generated u st Hu Hfresh) as Hu1.
  destruct (Token_get_or_create generated u st) as [[st1' t] c].
  simpl in Heq, Hu1. injection Heq as -> ->.
  destruct Hr as (Hown & Hin & _ & Hus & _ & _).
  exists (key t). split; [reflexivity|]. split.
  - unfold token_valid. apply existsb_exists. exists t. split; [exact Hin|].
    rewrite String.eqb_refl. simpl.
    unfold USER_get in *. rewrite Hown, Hus, Hget. exact Hact.
  - apply token_valid_after_logout_mine; [exact Hu1|exact Hin|].
    rewrite Hreq. exact Hown.
Qed.

(** Carol logs in, receives "k1", and logs out again. *)
Lemma logout_revokes_witness :
  let st1 := fst (Login_post (C:=by_password) "k1" demo_db
                    (login_request "carol@example.com" "pw3" carol)) in
  exists k,
    token "k1" = token k /\
    token_valid st1 k = true /\
    token_valid (fst (Logout_post st1 (login_request EmptyString EmptyString carol)))
                k = false.
Proof.
  apply (logout_revokes_the_token_of_the_login (C:=by_password) "k1" demo_db
           (login_request "carol@example.com" "pw3" carol) _
           (mkLoginResponse (token "k1") 200) carol
           (login_request EmptyString EmptyString carol)).
  - unfold keys_unique; simpl. repeat constructor; simpl; intuition.
  - simpl. intuition discriminate.
  - reflexivity.
  - reflexivity.
  - reflexivity.
  - reflexivity.
  - reflexivity.
Defined.

(** ** Email-change issuance *)

(** X5.  For a request the serializer accepts, addresses being unique:
    the email-change view refuses with 400 "Email address already taken."
    and leaves the state alone when a verified user owns the candidate
    address; otherwise (nobody, or only an unverified user, owns it) it
    answers 201 with the candidate address, stores one code for the caller
    that carries the candidate address and hands it to the e-mail sender,
    and touches neither users, tokens nor the codes of the other kinds. *)
Theorem email_change_issuance_refuses_verified_owner {E : Externals}
    env st request :
  emails_unique st ->
  EmailChangeSerializer_is_valid (data request) = true ->
  (verified_owner (d_email (data request)) st = true ->
   EmailChange_post env st request
   = (st, mkResponse (detail email_taken) HTTP_400_BAD_REQUEST)) /\
  (verified_owner (d_email (data request)) st = false ->
   issued EmailChangeCode env (request_user request) (d_email (data request))
     st (fst (EmailChange_post env st request)) /\
   (exists r, In r (objects EmailChangeCode (fst (EmailChange_post env st request)))
              /\ code r = fresh_code env
              /\ new_email r = d_email (data request)) /\
   users (fst (EmailChange_post env st request)) = users st /\
   tokens (fst (EmailChange_post env st request)) = tokens st /\
   signup_codes (fst (EmailChange_post env st request)) = signup_codes st /\
   password_reset_codes (fst (EmailChange_post env st request))
   = password_reset_codes st /\
   snd (EmailChange_post env st request)
   = mkResponse
       (success_email "The email with the email change code will be sent soon."
                      (d_email (data request)))
       HTTP_201_CREATED).
Proof.
  intros Hu Hvalid. unfold verified_owner.
  rewrite existsb_first_by_email by exact Hu.
  unfold EmailChange_post. rewrite Hvalid. simpl.
  split; intros ->; [reflexivity|].
  split; [|split; [|repeat split]].
  - apply (issued_by_create_and_send EmailChangeCode).
  - eexists. split; [|split].
    + simpl. apply in_or_app. right. left. reflexivity.
    + reflexivity.
    + reflexivity.
Qed.

(** Alice may ask for the address of the unverified Bob but not for the
    address of the verified Carol. *)
Lemma email_change_issuance_witness :
  EmailChange_post (E:=lenient) demo_env demo_db
    (login_request "carol@example.com" EmptyString alice)
  = (demo_db, mkResponse (detail "Email address already taken.") 400) /\
  status (snd (EmailChange_post (E:=lenient) demo_env demo_db
                 (login_request "bob@example.com" EmptyString alice))) = 201.
Proof.
  assert (Hu : emails_unique demo_db).
  { unfold emails_unique; simpl.
    repeat constructor; simpl; intuition discriminate. }
  split.
  - apply (email_change_issuance_refuses_verified_owner (E:=lenient) demo_env
             demo_db _ Hu eq_refl).
    reflexivity.
  - destruct (email_change_issuance_refuses_verified_owner (E:=lenient) demo_env
                demo_db (login_request "bob@example.com" EmptyString alice)
                Hu eq_refl) as [_ H].
    destruct (H eq_refl) as (_ & _ & _ & _ & _ & _ & Hr).
    rewrite Hr. reflexivity.
Defined.

(** ** What a consumption changes, kind by kind *)

(** X6.  Consuming a valid signup code always answers 200.  Afterwards
    the row stored under the key of the code's user has [is_verified] set
    and the key, email, password and [is_active] flag of that user, every
    other user row is untouched, exactly one welcome mail to the user's
    address has been added to the outbox, the signup codes are the former
    ones without this user's, and password-reset codes, email-change codes
    and tokens are what they were. *)
Theorem signup_consumption_verifies_the_user {E : Externals}
    env st request action_code :
  check_is_valid SignupCode (now env) st (GET_code request) = inr action_code ->
  snd (ActionVerifyView_post SignupCode env st request)
  = mkResponse (success "User email address has been verified.") HTTP_200_OK /\
  USER_get (pk (user action_code))
           (fst (ActionVerifyView_post SignupCode env st request))
  = Some (with_verified (user action_code)) /\
  (exists u,
     USER_get (pk (user action_code))
              (fst (ActionVerifyView_post SignupCode env st request))
     = Some u /\
     is_verified u = true /\
     pk u = pk (user action_code) /\
     email u = email (user action_code) /\
     password u = password (user action_code) /\
     is_active u = is_active (user action_code)) /\
  (forall p, p <> pk (user action_code) ->
     USER_get p (fst (ActionVerifyView_post SignupCode env st request))
     = USER_get p st) /\
  outbox (fst (ActionVerifyView_post SignupCode env st request))
  = (outbox st
     ++ [mkMail WelcomeMail (email (user action_code)) EmptyString EmptyString])%list /\
  signup_codes (fst (ActionVerifyView_post SignupCode env st request))
  = filter (fun r => negb (owned_by (pk (user action_code)) r)) (signup_codes st) /\
  password_reset_codes (fst (ActionVerifyView_post SignupCode env st request))
  = password_reset_codes st /\
  email_change_codes (fst (ActionVerifyView_post SignupCode env st request))
  = email_change_codes st /\
  tokens (fst (ActionVerifyView_post SignupCode env st request)) = tokens st.
Proof.
  intro Hv. unfold ActionVerifyView_post. rewrite Hv. simpl.
  unfold verify_user.
  split; [reflexivity|].
  split; [|split; [|split; [|split; [|split; [|split; [|split]]]]]].
  - apply (USER_get_save (with_verified (user action_code))).
  - exists (with_verified (user action_code)).
    split; [apply (USER_get_save (with_verified (user action_code)))|].
    repeat split.
  - intros p Hp. apply (USER_get_save_other (with_verified (user action_code))).
    exact Hp.
  - rewrite outbox_User_save. reflexivity.
  - apply (f_equal (filter _)). apply (objects_User_save SignupCode).
  - apply (objects_User_save PasswordResetCode).
  - apply (objects_User_save EmailChangeCode).
  - apply tokens_User_save.
Qed.

(** Bob consumes his signup code "s3". *)
Lemma signup_consumption_witness :
  (exists u,
     USER_get 2 (fst (ActionVerifyView_post (E:=lenient) SignupCode demo_env
                        demo_db (demo_request "s3"))) = Some u /\
     is_verified u = true /\ email u = "bob@example.com") /\
  outbox (fst (ActionVerifyView_post (E:=lenient) SignupCode demo_env demo_db
                 (demo_request "s3")))
  = [mkMail WelcomeMail "bob@example.com" EmptyString EmptyString].
Proof.
  destruct (signup_consumption_verifies_the_user (E:=lenient) demo_env demo_db
              (demo_request "s3")
              (mkActionCode (mkCodeRow "s3" 2 5 105 "10.0.0.2" "l" EmptyString) bob)
              eq_refl) as (_ & _ & (u & Hu & Hver & _ & He & _) & _ & Ho & _).
  split; [|exact Ho].
  exists u. split; [exact Hu|]. split; [exact Hver|exact He].
Defined.

(** X7.  Consuming a valid password-reset code: when the serializer
    rejects the request body the answer is 400 and nothing changes, so the
    code stays usable; when it accepts, the answer is 200, the stored
    password of the code's user is the hash of the new one, which
    [check_password] accepts, every other user row is untouched, the
    password-reset codes are the former ones without this user's, nothing
    is sent and the other tables are what they were. *)
Theorem password_reset_consumption_sets_the_password {E : Externals}
    env st request action_code :
  check_is_valid PasswordResetCode (now env) st (GET_code request)
    = inr action_code ->
  (PasswordResetVerifiedSerializer_is_valid (data request) = false ->
   ActionVerifyView_post PasswordResetCode env st request
   = (st, mkResponse (serializer_errors (data request)) HTTP_400_BAD_REQUEST)) /\
  (PasswordResetVerifiedSerializer_is_valid (data request) = true ->
   snd (ActionVerifyView_post PasswordResetCode env st request)
   = mkResponse (success "User password has been reset.") HTTP_200_OK /\
   (exists u,
      USER_get (pk (user action_code))
               (fst (ActionVerifyView_post PasswordResetCode env st request))
      = Some u /\
      password u = make_password (d_password (data request)) /\
      check_password u (d_password (data request)) = true /\
      email u = email (user action_code) /\
      is_verified u = is_verified (user action_code) /\
      is_active u = is_active (user action_code)) /\
   (forall p, p <> pk (user action_code) ->
      USER_get p (fst (ActionVerifyView_post PasswordResetCode env st request))
      = USER_get p st) /\
   password_reset_codes
     (fst (ActionVerifyView_post PasswordResetCode env st request))
   = filter (fun r => negb (owned_by (pk (user action_code)) r))
            (password_reset_codes st) /\
   signup_codes (fst (ActionVerifyView_post PasswordResetCode env st request))
   = signup_codes st /\
   email_change_codes
     (fst (ActionVerifyView_post PasswordResetCode env st request))
   = email_change_codes st /\
   tokens (fst (ActionVerifyView_post PasswordResetCode env st request))
   = tokens st /\
   outbox (fst (ActionVerifyView_post PasswordResetCode env st request))
   = outbox st).
Proof.
  intro Hv. unfold ActionVerifyView_post. rewrite Hv. simpl.
  unfold PasswordResetVerify_handle_request.
  split; intros ->; simpl; [reflexivity|].
  unfold change_user_password.
  set (u := set_password (d_password (data request)) (user action_code)).
  split; [reflexivity|].
  split; [|split; [|split; [|split; [|split; [|split]]]]].
  - exists u. split; [apply (USER_get_save u)|].
    repeat split. unfold check_password. simpl. apply String.eqb_refl.
  - intros p Hp. apply (USER_get_save_other u). exact Hp.
  - apply (f_equal (filter _)). apply (objects_User_save PasswordResetCode).
  - apply (objects_User_save SignupCode).
  - apply (objects_User_save EmailChangeCode).
  - apply tokens_User_save.
  - apply outbox_User_save.
Qed.

(** Alice resets her password with "p2"; "Str0ngP@ss" is stored. *)
Lemma password_reset_consumption_witness :
  let request :=
    mkRequest (Some "p2")
      (mkData EmptyString "Str0ngP@ss" EmptyString EmptyString EmptyString None)
      alice None in
  exists u,
    USER_get 1 (fst (ActionVerifyView_post (E:=lenient) PasswordResetCode
                       demo_env demo_db request)) = Some u /\
    password u = "Str0ngP@ss".
Proof.
  intro request.
  destruct (password_reset_consumption_sets_the_password (E:=lenient) demo_env
              demo_db request
              (mkActionCode (mkCodeRow "p2" 1 5 105 "10.0.0.1" "l" EmptyString)
                            alice)
              eq_refl) as [_ H].
  destruct (H eq_refl) as (_ & (u & Hu & Hp & _) & _).
  exists u. split; [exact Hu|exact Hp].
Defined.

(** X8.  Consuming a valid email-change code while an unverified user
    other than the requester holds the candidate address (addresses being
    unique) deletes that account together with everything that refers to
    it: afterwards no row is stored under the holder's key, the signup
    codes, the password-reset codes and the tokens are the former ones
    without the holder's, the email-change codes are the former ones
    without the holder's and the requester's, no mail has been sent, and
    every user row other than the holder's and the requester's is
    untouched. *)
Theorem email_change_consumption_removes_the_stale_account {E : Externals}
    env st request action_code holder :
  emails_unique st ->
  check_is_valid EmailChangeCode (now env) st (GET_code request)
    = inr action_code ->
  In holder (users st) ->
  email holder = new_email (row action_code) ->
  is_verified holder = false ->
  pk holder <> pk (user action_code) ->
  USER_get (pk holder)
    (fst (ActionVerifyView_post EmailChangeCode env st request)) = None /\
  (forall u, In u (users (fst (ActionVerifyView_post EmailChangeCode env st
                                 request))) ->
             pk u <> pk holder) /\
  signup_codes (fst (ActionVerifyView_post EmailChangeCode env st request))
  = filter (fun r => negb (owned_by (pk holder) r)) (signup_codes st) /\
  password_reset_codes (fst (ActionVerifyView_post EmailChangeCode env st request))
  = filter (fun r => negb (owned_by (pk holder) r)) (password_reset_codes st) /\
  email_change_codes (fst (ActionVerifyView_post EmailChangeCode env st request))
  = filter (fun r => negb (owned_by (pk (user action_code)) r))
      (filter (fun r => negb (owned_by (pk holder) r)) (email_change_codes st)) /\
  tokens (fst (ActionVerifyView_post EmailChangeCode env st request))
  = filter (fun t => negb (Nat.eqb (token_user t) (pk holder))) (tokens st) /\
  outbox (fst (ActionVerifyView_post EmailChangeCode env st request))
  = outbox st /\
  (forall p, p <> pk holder -> p <> pk (user action_code) ->
     USER_get p (fst (ActionVerifyView_post EmailChangeCode env st request))
     = USER_get p st).
Proof.
  intros Hu Hv Hin He Hver Hne.
  unfold ActionVerifyView_post. rewrite Hv. simpl.
  unfold EmailChangeVerify_handle_request.
  rewrite (first_by_email _ _ holder Hu Hin He), Hver. simpl.
  unfold change_user_email.
  set (u := with_email (new_email (row action_code)) (user action_code)).
  assert (Hgone : USER_get (pk holder) (User_save u (User_delete holder st))
                  = None).
  { rewrite (USER_get_save_other u) by exact Hne. apply USER_get_delete_same. }
  split; [exact Hgone|].
  split; [|split; [|split; [|split; [|split; [|split]]]]].
  - intros v Hv' Hpk.
    assert (Hfind : find (has_pk (pk holder))
                         (users (User_save u (User_delete holder st))) <> None).
    { intro Hnone. apply (find_none _ _ Hnone) in Hv'.
      unfold has_pk in Hv'. rewrite Hpk, Nat.eqb_refl in Hv'. discriminate Hv'. }
    exact (Hfind Hgone).
  - exact (objects_User_save SignupCode u (User_delete holder st)).
  - exact (objects_User_save PasswordResetCode u (User_delete holder st)).
  - apply (f_equal (filter _)).
    exact (objects_User_save EmailChangeCode u (User_delete holder st)).
  - exact (tokens_User_save u (User_delete holder st)).
  - exact (outbox_User_save u (User_delete holder st)).
  - intros p Hp Hq.
    transitivity (USER_get p (User_delete holder st)).
    + exact (USER_get_save_other u p (User_delete holder st) Hq).
    + apply USER_get_delete_other, Hp.
Qed.

(** Alice consumes "e1" for the address of the unverified Bob: Bob's row
    and his signup code "s3" go, Alice's token stays. *)
Lemma email_change_consumption_removes_witness :
  USER_get 2 (fst (ActionVerifyView_post (E:=lenient) EmailChangeCode demo_env
                     demo_db (demo_request "e1"))) = None /\
  signup_codes (fst (ActionVerifyView_post (E:=lenient) EmailChangeCode demo_env
                       demo_db (demo_request "e1")))
  = [mkCodeRow "s1" 1 0 100 "10.0.0.1" "l" EmptyString;
     mkCodeRow "s2" 1 5 105 "10.0.0.1" "l" EmptyString] /\
  tokens (fst (ActionVerifyView_post (E:=lenient) EmailChangeCode demo_env
                 demo_db (demo_request "e1")))
  = [mkToken "tok-alice" 1].
Proof.
  assert (Hu : emails_unique demo_db).
  { unfold emails_unique; simpl.
    repeat constructor; simpl; intuition discriminate. }
  assert (Hne : pk bob <> pk alice) by (simpl; lia).
  destruct (email_change_consumption_removes_the_stale_account (E:=lenient)
              demo_env demo_db (demo_request "e1")
              (mkActionCode (mkCodeRow "e1" 1 0 100 "10.0.0.1" "l" "bob@example.com")
                            alice)
              bob Hu eq_refl (or_intror (or_introl eq_refl)) eq_refl eq_refl Hne)
    as (Hg & _ & Hs & _ & _ & Ht & _).
  split; [exact Hg|]. split; [exact Hs|exact Ht].
Defined.

(** X9.  Consuming a valid email-change code while nobody holds the
    candidate address always answers 200: the row stored under the
    requester's key has the candidate address as its email and the
    requester's key, password and flags, no other user row changes, the requester's email-change codes are deleted, no mail is
    sent and the other tables are what they were. *)
Theorem email_change_consumption_to_a_free_address {E : Externals}
    env st request action_code :
  check_is_valid EmailChangeCode (now env) st (GET_code request)
    = inr action_code ->
  (forall u, In u (users st) -> email u <> new_email (row action_code)) ->
  snd (ActionVerifyView_post EmailChangeCode env st request)
  = mkResponse (success "Email address has been changed.") HTTP_200_OK /\
  USER_get (pk (user action_code))
           (fst (ActionVerifyView_post EmailChangeCode env st request))
  = Some (with_email (new_email (row action_code)) (user action_code)) /\
  (exists u,
     USER_get (pk (user action_code))
              (fst (ActionVerifyView_post EmailChangeCode env st request))
     = Some u /\
     email u = new_email (row action_code) /\
     pk u = pk (user action_code) /\
     password u = password (user action_code) /\
     is_verified u = is_verified (user action_code) /\
     is_active u = is_active (user action_code)) /\
  (forall p, p <> pk (user action_code) ->
     USER_get p (fst (ActionVerifyView_post EmailChangeCode env st request))
     = USER_get p st) /\
  email_change_codes (fst (ActionVerifyView_post EmailChangeCode env st request))
  = filter (fun r => negb (owned_by (pk (user action_code)) r))
           (email_change_codes st) /\
  signup_codes (fst (ActionVerifyView_post EmailChangeCode env st request))
  = signup_codes st /\
  password_reset_codes (fst (ActionVerifyView_post EmailChangeCode env st request))
  = password_reset_codes st /\
  tokens (fst (ActionVerifyView_post EmailChangeCode env st request))
  = tokens st /\
  outbox (fst (ActionVerifyView_post EmailChangeCode env st request))
  = outbox st.
Proof.
  intros Hv Hfree.
  assert (Hnone : USER_filter_email_first (new_email (row action_code)) st = None).
  { destruct (USER_filter_email_first _ st) as [h|] eqn:Hf; [|reflexivity].
    apply first_by_email_holds in Hf as [Hin He].
    exfalso. exact (Hfree h Hin He). }
  unfold ActionVerifyView_post. rewrite Hv. simpl.
  unfold EmailChangeVerify_handle_request. rewrite Hnone. simpl.
  unfold change_user_email.
  set (u := with_email (new_email (row action_code)) (user action_code)).
  split; [reflexivity|].
  split; [|split; [|split; [|split; [|split; [|split; [|split]]]]]].
  - apply (USER_get_save u).
  - exists u. split; [apply (USER_get_save u)|]. repeat split.
  - intros p Hp. apply (USER_get_save_other u), Hp.
  - apply (f_equal (filter _)). apply (objects_User_save EmailChangeCode).
  - apply (objects_User_save SignupCode).
  - apply (objects_User_save PasswordResetCode).
  - apply tokens_User_save.
  - apply outbox_User_save.
Qed.

(** Carol's code "e9" asks for an address nobody holds. *)
Lemma email_change_consumption_free_witness :
  let st :=
    set_objects EmailChangeCode
      [mkCodeRow "e9" 3 0 100 "10.0.0.3" "l" "new@example.com"] demo_db in
  exists u,
    USER_get 3 (fst (ActionVerifyView_post (E:=lenient) EmailChangeCode demo_env
                       st (demo_request "e9"))) = Some u /\
    email u = "new@example.com".
Proof.
  intro st.
  destruct (email_change_consumption_to_a_free_address (E:=lenient) demo_env st
              (demo_request "e9")
              (mkActionCode (mkCodeRow "e9" 3 0 100 "10.0.0.3" "l" "new@example.com")
                            carol))
    as (_ & _ & (u & Hu & He & _) & _).
  - reflexivity.
  - simpl. intros u [<-|[<-|[<-|[]]]]; discriminate.
  - exists u. split; [exact Hu|exact He].
Defined.

(** ** Uniqueness of keys and addresses in the user table *)

Lemma map_pk_replace u (l : list User) :
  map pk (map (fun v => if has_pk (pk u) v then u else v) l) = map pk l.
Proof.
  induction l as [|v l IH]; simpl; [reflexivity|]. rewrite IH.
  destruct (has_pk (pk u) v) eqn:Hv; [|reflexivity].
  apply Nat.eqb_eq in Hv. rewrite Hv. reflexivity.
Qed.

(** Replacing the row of key [pk u] by [u] keeps the addresses distinct
    when no row of another key has the address of [u]. *)
Lemma NoDup_email_replace u (l : list User) :
  NoDup (map pk l) -> NoDup (map email l) ->
  (forall v, In v l -> email v = email u -> pk v = pk u) ->
  NoDup (map email (map (fun v => if has_pk (pk u) v then u else v) l)).
Proof.
  induction l as [|v l IH]; simpl; intros Hp He Hown; [constructor|].
  inversion Hp as [|? ? Hpv Hp']; inversion He as [|? ? Hev He']; subst.
  constructor.
  - intro Hin. apply in_map_iff in Hin as (w' & Hw' & Hin).
    apply in_map_iff in Hin as (w & <- & Hw).
    destruct (has_pk (pk u) v) eqn:Hv, (has_pk (pk u) w) eqn:Hwk.
    + apply Nat.eqb_eq in Hv, Hwk. apply Hpv. rewrite Hv, <- Hwk.
      apply in_map, Hw.
    + assert (pk w = pk u) by (apply Hown; auto).
      apply Nat.eqb_neq in Hwk. contradiction.
    + assert (pk v = pk u) by (apply Hown; auto).
      apply Nat.eqb_neq in Hv. contradiction.
    + apply Hev. rewrite <- Hw'. apply in_map, Hw.
  - apply IH; auto.
Qed.

Lemma existsb_has_pk_false p (l : list User) :
  existsb (has_pk p) l = false -> ~ In p (map pk l).
Proof.
  intros Hex Hin. apply in_map_iff in Hin as (v & Hv & Hin).
  assert (existsb (has_pk p) l = true).
  { apply existsb_exists. exists v. split; [exact Hin|].
    apply Nat.eqb_eq, Hv. }
  congruence.
Qed.

(** [user.save()] keeps keys and addresses unique when no row of another
    key has the address of the saved user. *)
Lemma User_save_keeps_unique u st :
  pks_unique st -> emails_unique st ->
  (forall v, In v (users st) -> email v = email u -> pk v = pk u) ->
  pks_unique (User_save u st) /\ emails_unique (User_save u st).
Proof.
  unfold pks_unique, emails_unique, User_save. intros Hp He Hown.
  destruct (existsb (has_pk (pk u)) (users st)) eqn:Hex; simpl.
  - split; [rewrite map_pk_replace; exact Hp|].
    apply NoDup_email_replace; assumption.
  - apply existsb_has_pk_false in Hex.
    rewrite !map_app. simpl. split; apply NoDup_snoc; auto.
    intro Hin. apply in_map_iff in Hin as (v & Hv & Hin).
    apply Hex. rewrite <- (Hown v Hin Hv). apply in_map, Hin.
Qed.

Lemma NoDup_map_filter {A B} (f : A -> B) (g : A -> bool) (l : list A) :
  NoDup (map f l) -> NoDup (map f (filter g l)).
Proof.
  induction l as [|x l IH]; simpl; intro Hnd; [constructor|].
  inversion Hnd as [|? ? Hx Hnd']; subst.
  destruct (g x); simpl; [|auto]. constructor; [|auto].
  intro Hin. apply Hx. apply in_map_iff in Hin as (y & Hy & Hin).
  apply filter_In in Hin as [Hin _]. rewrite <- Hy. apply in_map, Hin.
Qed.

Lemma User_delete_keeps_unique u st :
  pks_unique st -> emails_unique st ->
  pks_unique (User_delete u st) /\ emails_unique (User_delete u st).
Proof.
  unfold pks_unique, emails_unique. simpl.
  split; apply NoDup_map_filter; assumption.
Qed.

(** Saving a stored user with its address unchanged meets the side
    condition of [User_save_keeps_unique]. *)
Lemma same_address_owner u u0 st :
  emails_unique st -> In u0 (users st) ->
  pk u = pk u0 -> email u = email u0 ->
  forall v, In v (users st) -> email v = email u -> pk v = pk u.
Proof.
  intros He Hin Hpk Hem v Hv Hve.
  assert (v = u0) as ->.
  { apply (NoDup_map_same email (users st)); auto. congruence. }
  symmetry. exact Hpk.
Qed.

Lemma USER_get_In p st u : USER_get p st = Some u -> In u (users st).
Proof. unfold USER_get. intro H. apply find_some in H. tauto. Qed.

Lemma next_pk_fresh st : ~ In (next_pk st) (map pk (users st)).
Proof.
  unfold next_pk. intro Hin.
  assert (Hle : list_max (map pk (users st)) <= list_max (map pk (users st)))
    by lia.
  apply list_max_le in Hle. rewrite Forall_forall in Hle.
  apply Hle in Hin. lia.
Qed.

(** X10.  If primary keys and addresses are unique in the user table
    before a consumption request, of whatever kind and outcome, they are
    unique after it. *)
Theorem consumption_keeps_the_user_table_unique {E : Externals}
    k env st request :
  pks_unique st -> emails_unique st ->
  pks_unique (fst (ActionVerifyView_post k env st request)) /\
  emails_unique (fst (ActionVerifyView_post k env st request)).
Proof.
  intros Hp He. unfold ActionVerifyView_post.
  destruct (check_is_valid k (now env) st (GET_code request)) as [err|ac] eqn:Hv;
    [simpl; auto|].
  pose proof (check_is_valid_owner _ _ _ _ _ Hv) as Hown.
  apply check_is_valid_ok in Hv as (s & _ & _ & _ & Hget).
  rewrite <- Hown in Hget. pose proof (USER_get_In _ _ _ Hget) as Hin.
  destruct k; simpl.
  - unfold pks_unique, emails_unique. simpl.
    apply (User_save_keeps_unique (with_verified (user ac))); auto.
    apply (same_address_owner _ (user ac)); auto.
  - unfold PasswordResetVerify_handle_request.
    destruct (PasswordResetVerifiedSerializer_is_valid (data request)); simpl;
      [|auto].
    unfold pks_unique, emails_unique. simpl.
    apply (User_save_keeps_unique (set_password _ (user ac))); auto.
    apply (same_address_owner _ (user ac)); auto.
  - unfold EmailChangeVerify_handle_request.
    destruct (USER_filter_email_first (new_email (row ac)) st) as [h|] eqn:Hf.
    + destruct (is_verified h); simpl; [auto|].
      apply first_by_email_holds in Hf as [Hh Hhe].
      destruct (User_delete_keeps_unique h st Hp He) as [Hp' He'].
      unfold pks_unique, emails_unique. simpl.
      apply (User_save_keeps_unique (with_email _ (user ac))); auto.
      simpl. intros v Hv Hve. exfalso.
      apply filter_In in Hv as [Hv Hnot]. simpl in Hve.
      assert (v = h) as ->.
      { apply (NoDup_map_same email (users st)); auto. congruence. }
      unfold has_pk in Hnot. rewrite Nat.eqb_refl in Hnot. discriminate Hnot.
    + simpl. unfold pks_unique, emails_unique. simpl.
      apply (User_save_keeps_unique (with_email _ (user ac))); auto.
      simpl. intros v Hv Hve. exfalso.
      exact (first_by_email_none _ _ v Hf Hv Hve).
Qed.

(** The user table stays unique when Alice takes over Bob's address. *)
Lemma consumption_keeps_unique_witness :
  emails_unique (fst (ActionVerifyView_post (E:=lenient) EmailChangeCode
                        demo_env demo_db (demo_request "e1"))).
Proof.
  apply (consumption_keeps_the_user_table_unique (E:=lenient) EmailChangeCode
           demo_env demo_db (demo_request "e1")).
  - unfold pks_unique; simpl. repeat constructor; simpl; lia.
  - unfold emails_unique; simpl.
    repeat constructor; simpl; intuition discriminate.
Defined.

(** X11.  If primary keys and addresses are unique in the user table
    before a signup request, they are unique after it, whether the request
    was refused, left a stub behind or issued a code. *)
Theorem signup_keeps_the_user_table_unique {E : Externals} env st request :
  pks_unique st -> emails_unique st ->
  pks_unique (fst (Signup_post env st request)) /\
  emails_unique (fst (Signup_post env st request)).
Proof.
  intros Hp He. unfold Signup_post.
  destruct (SignupSerializer_is_valid (data request)); simpl; [|auto].
  unfold check_verified_users, USER_get_or_create.
  destruct (USER_filter_email_first (d_email (data request)) st) as [u0|] eqn:Hf.
  - simpl. destruct (is_verified u0); simpl; [auto|].
    destruct (UserSerializer_is_valid u0 (data request)); simpl; [|auto].
    apply first_by_email_holds in Hf as [Hin _].
    unfold pks_unique, emails_unique. simpl.
    apply (User_save_keeps_unique
             (mkUser (pk u0) (email u0) _ _ _ (is_verified u0) (is_active u0)));
      auto.
    apply (same_address_owner _ u0); auto.
  - simpl.
    set (stub := mkUser (next_pk st) _ _ _ _ _ _).
    set (st1 := set_users (users st ++ [stub]) st).
    assert (Hp1 : pks_unique st1).
    { unfold pks_unique, st1. simpl. rewrite map_app. simpl.
      apply NoDup_snoc; [exact Hp|apply next_pk_fresh]. }
    assert (He1 : emails_unique st1).
    { unfold emails_unique, st1. simpl. rewrite map_app. simpl.
      apply NoDup_snoc; [exact He|].
      intro Hin. apply in_map_iff in Hin as (v & Hv & Hin).
      exact (first_by_email_none _ _ v Hf Hin Hv). }
    destruct (UserSerializer_is_valid stub (data request)); simpl; [|auto].
    unfold pks_unique, emails_unique. simpl.
    apply (User_save_keeps_unique
             (mkUser (pk stub) (email stub) _ _ _ (is_verified stub)
                     (is_active stub)) st1); auto.
    apply (same_address_owner _ stub); auto.
    unfold st1. simpl. apply in_or_app. right. left. reflexivity.
Qed.

(** Dave signs up on the demo state. *)
Lemma signup_keeps_unique_witness :
  pks_unique (fst (Signup_post (E:=lenient) demo_env demo_db (demo_request "x")))
  /\ emails_unique (fst (Signup_post (E:=lenient) demo_env demo_db
                           (demo_request "x"))).
Proof.
  apply (signup_keeps_the_user_table_unique (E:=lenient) demo_env demo_db
           (demo_request "x")).
  - unfold pks_unique; simpl. repeat constructor; simpl; lia.
  - unfold emails_unique; simpl.
    repeat constructor; simpl; intuition discriminate.
Defined.

(** ** From issuance to consumption *)

(** The code a view has just created and mailed passes [check_is_valid]
    when its string was not in use, its lifetime has not run out and its
    user is stored. *)
Lemma created_code_is_valid {E : Externals} k env u ip lnk addr st t u0 :
  ~ In (fresh_code env) (map code (objects k st)) ->
  (t <= now env + expiry_period k)%Z ->
  USER_get (pk u) st = Some u0 ->
  check_is_valid k t
    (send_email k (snd (objects_create k env u ip lnk addr st)) u
                (fst (objects_create k env u ip lnk addr st)))
    (Some (fresh_code env))
  = inr (mkActionCode (snd (objects_create k env u ip lnk addr st)) u0).
Proof.
  intros Hfresh Ht Hget. unfold check_is_valid, send_email, objects_create.
  simpl. rewrite objects_send, objects_set_objects.
  rewrite (find_app_none (has_code (fresh_code env)) (objects k st)).
  - simpl. destruct (Z.ltb_spec (now env + expiry_period k) t) as [Hlt|_];
      [lia|].
    unfold USER_get in *. simpl. rewrite users_set_objects, Hget. reflexivity.
  - apply find_has_code_none. intros r Hr Hc. apply Hfresh.
    rewrite <- Hc. apply in_map, Hr.
  - unfold has_code. simpl. apply String.eqb_refl.
Qed.

(** The state and the answer of a signup that was answered with 201. *)
Lemma Signup_post_created {E : Externals} env st request :
  status (snd (Signup_post env st request)) = HTTP_201_CREATED ->
  exists st0 u,
    (forall k, objects k st0 = objects k st) /\
    outbox st0 = outbox st /\
    USER_get (pk u) st0 = Some u /\
    email u = d_email (data request) /\
    Signup_post env st request
    = (send_email SignupCode
         (snd (objects_create SignupCode env u
                 (py_or (client_ip request) unknown_ip)
                 (py_or (d_link (data request)) EmptyString) EmptyString st0))
         u
         (fst (objects_create SignupCode env u
                 (py_or (client_ip request) unknown_ip)
                 (py_or (d_link (data request)) EmptyString) EmptyString st0)),
       mkResponse (serializer_data u) HTTP_201_CREATED).
Proof.
  unfold Signup_post.
  destruct (SignupSerializer_is_valid (data request)); simpl;
    [|discriminate].
  unfold check_verified_users, USER_get_or_create.
  destruct (USER_filter_email_first (d_email (data request)) st) as [u0|] eqn:Hf.
  - simpl. destruct (is_verified u0); simpl; [discriminate|].
    destruct (UserSerializer_is_valid u0 (data request)); simpl;
      [|discriminate].
    intros _. apply first_by_email_holds in Hf as [_ He].
    set (u := mkUser (pk u0) (email u0) (make_password (d_password (data request)))
                     (d_first_name (data request)) (d_last_name (data request))
                     (is_verified u0) (is_active u0)).
    exists (User_save u st), u. split; [|split; [|split; [|split]]].
    + intro k. apply objects_User_save.
    + apply outbox_User_save.
    + apply (USER_get_save u).
    + exact He.
    + reflexivity.
  - simpl.
    set (stub := mkUser (next_pk st) _ _ _ _ _ _).
    destruct (UserSerializer_is_valid stub (data request)); simpl;
      [|discriminate].
    intros _.
    set (u := mkUser (pk stub) (email stub)
                     (make_password (d_password (data request)))
                     (d_first_name (data request)) (d_last_name (data request))
                     (is_verified stub) (is_active stub)).
    exists (User_save u (set_users (users st ++ [stub]) st)), u.
    split; [|split; [|split; [|split]]].
    + intro k. rewrite objects_User_save. destruct k; reflexivity.
    + exact (outbox_User_save u (set_users (users st ++ [stub]) st)).
    + apply (USER_get_save u).
    + reflexivity.
    + reflexivity.
Qed.

(** X12.  A signup answered with 201 can be completed: if the generated
    code string was not in use among the signup codes, a consumption
    request that presents it within its lifetime is answered with 200, the
    row then stored under the key of the user the signup answered with has
    [is_verified] set and the requested address as its email, and the
    outbox has gained the verification mail and
    then the welcome mail, both to that address. *)
Theorem signup_then_verify_makes_the_user_verified {E : Externals}
    env st request env2 request2 :
  status (snd (Signup_post env st request)) = HTTP_201_CREATED ->
  ~ In (fresh_code env) (map code (signup_codes st)) ->
  (now env2 <= now env + expiry_period SignupCode)%Z ->
  GET_code request2 = Some (fresh_code env) ->
  exists u,
    snd (Signup_post env st request)
    = mkResponse (serializer_data u) HTTP_201_CREATED /\
    email u = d_email (data request) /\
    snd (ActionVerifyView_post SignupCode env2
           (fst (Signup_post env st request)) request2)
    = mkResponse (success "User email address has been verified.") HTTP_200_OK /\
    USER_get (pk u)
      (fst (ActionVerifyView_post SignupCode env2
              (fst (Signup_post env st request)) request2))
    = Some (with_verified u) /\
    (exists v,
       USER_get (pk u)
         (fst (ActionVerifyView_post SignupCode env2
                 (fst (Signup_post env st request)) request2))
       = Some v /\
       is_verified v = true /\
       email v = d_email (data request) /\
       password v = password u) /\
    outbox (fst (ActionVerifyView_post SignupCode env2
                   (fst (Signup_post env st request)) request2))
    = (outbox st
       ++ [mkMail SignupMail (d_email (data request)) (fresh_code env)
                  (py_or (d_link (data request)) EmptyString);
           mkMail WelcomeMail (d_email (data request)) EmptyString EmptyString])%list.
Proof.
  intros Hs Hfresh Ht Hc.
  destruct (Signup_post_created env st request Hs)
    as (st0 & u & Ho & Hb & Hget & He & Heq).
  rewrite Heq. cbn [fst snd].
  exists u. split; [reflexivity|]. split; [exact He|].
  unfold ActionVerifyView_post. rewrite Hc.
  rewrite (created_code_is_valid SignupCode env u _ _ _ st0 (now env2) u).
  - simpl. split; [reflexivity|]. split; [|split].
    + apply (USER_get_save (with_verified u)).
    + exists (with_verified u).
      split; [apply (USER_get_save (with_verified u))|].
      split; [reflexivity|]. split; [exact He|reflexivity].
    + unfold verify_user. rewrite outbox_User_save. simpl.
      rewrite Hb, He, <- app_assoc. reflexivity.
  - rewrite (Ho SignupCode). exact Hfresh.
  - exact Ht.
  - exact Hget.
Qed.

(** Dave signs up at time 50 and confirms with the code at time 150. *)
Lemma signup_then_verify_witness :
  exists u v,
    email u = "dave@example.com" /\
    USER_get (pk u)
      (fst (ActionVerifyView_post (E:=lenient) SignupCode (mkEnv 150 "z")
              (fst (Signup_post (E:=lenient) demo_env demo_db (demo_request "x")))
              (demo_request "fresh")))
    = Some v /\
    is_verified v = true.
Proof.
  destruct (signup_then_verify_makes_the_user_verified (E:=lenient) demo_env
              demo_db (demo_request "x") (mkEnv 150 "z") (demo_request "fresh"))
    as (u & _ & He & _ & _ & (v & Hv & Hver & _) & _).
  - reflexivity.
  - simpl. intuition discriminate.
  - simpl. lia.
  - reflexivity.
  - exists u, v. split; [exact He|]. split; [exact Hv|exact Hver].
Defined.

Lemma USER_get_of_In u st :
  pks_unique st -> In u (users st) -> USER_get (pk u) st = Some u.
Proof.
  unfold pks_unique, USER_get.
  induction (users st) as [|v l IH]; simpl; [tauto|].
  intros Hnd Hin. inversion Hnd as [|? ? Hv Hnd']; subst.
  destruct Hin as [->|Hin].
  - unfold has_pk. rewrite Nat.eqb_refl. reflexivity.
  - destruct (has_pk (pk u) v) eqn:Hk; [|auto].
    exfalso. apply Hv. apply Nat.eqb_eq in Hk. rewrite Hk. apply in_map, Hin.
Qed.

(** X13.  A password-reset request answered with 201 can be completed:
    primary keys being unique and the generated code string not in use
    among the password-reset codes, a consumption request that presents it
    within its lifetime with a body the serializer accepts is answered with
    200, and the verified, active user who owns the requested address then
    has the hash of the new password stored, which [check_password]
    accepts. *)
Theorem password_reset_then_verify_sets_the_new_password {E : Externals}
    env st request env2 request2 :
  pks_unique st ->
  status (snd (PasswordReset_post env st request)) = HTTP_201_CREATED ->
  ~ In (fresh_code env) (map code (password_reset_codes st)) ->
  (now env2 <= now env + expiry_period PasswordResetCode)%Z ->
  GET_code request2 = Some (fresh_code env) ->
  PasswordResetVerifiedSerializer_is_valid (data request2) = true ->
  exists u,
    In u (users st) /\ email u = d_email (data request) /\
    is_verified u = true /\ is_active u = true /\
    snd (ActionVerifyView_post PasswordResetCode env2
           (fst (PasswordReset_post env st request)) request2)
    = mkResponse (success "User password has been reset.") HTTP_200_OK /\
    USER_get (pk u)
      (fst (ActionVerifyView_post PasswordResetCode env2
              (fst (PasswordReset_post env st request)) request2))
    = Some (set_password (d_password (data request2)) u) /\
    check_password (set_password (d_password (data request2)) u)
                   (d_password (data request2)) = true.
Proof.
  intros Hp Hs Hfresh Ht Hc Hok. revert Hs. unfold PasswordReset_post.
  destruct (PasswordResetSerializer_is_valid (data request)); simpl;
    [|discriminate].
  destruct (USER_filter_email_first (d_email (data request)) st) as [u|] eqn:Hf;
    [|discriminate].
  destruct (is_verified u) eqn:Hver; simpl; [|discriminate].
  destruct (is_active u) eqn:Hact; simpl; [|discriminate].
  intros _. apply first_by_email_holds in Hf as [Hin He].
  exists u. split; [exact Hin|]. split; [exact He|].
  split; [exact Hver|]. split; [exact Hact|].
  pose proof (created_code_is_valid PasswordResetCode env u
                (py_or (client_ip request) unknown_ip)
                (py_or (d_link (data request)) EmptyString) EmptyString
                st (now env2) u Hfresh Ht (USER_get_of_In u st Hp Hin)) as Hv.
  unfold ActionVerifyView_post. rewrite Hc.
  unfold objects_create in Hv. simpl in Hv. unfold send_email. simpl.
  unfold send_email in Hv. simpl in Hv. rewrite Hv. simpl.
  unfold PasswordResetVerify_handle_request. rewrite Hok. simpl.
  split; [reflexivity|]. split.
  - apply (USER_get_save (set_password (d_password (data request2)) u)).
  - unfold check_password. simpl. apply String.eqb_refl.
Qed.

(** Carol asks for a reset at time 50 and sets "Str0ngP@ss" at time 60. *)
Lemma password_reset_then_verify_witness :
  exists u,
    email u = "carol@example.com" /\
    USER_get (pk u)
      (fst (ActionVerifyView_post (E:=lenient) PasswordResetCode (mkEnv 60 "z")
              (fst (PasswordReset_post (E:=lenient) demo_env demo_db
                      (login_request "carol@example.com" EmptyString carol)))
              (mkRequest (Some "fresh")
                 (mkData EmptyString "Str0ngP@ss" EmptyString EmptyString
                         EmptyString None) carol None)))
    = Some (set_password (E:=lenient) "Str0ngP@ss" u).
Proof.
  destruct (password_reset_then_verify_sets_the_new_password (E:=lenient)
              demo_env demo_db
              (login_request "carol@example.com" EmptyString carol)
              (mkEnv 60 "z")
              (mkRequest (Some "fresh")
                 (mkData EmptyString "Str0ngP@ss" EmptyString EmptyString
                         EmptyString None) carol None))
    as (u & _ & He & _ & _ & _ & Hu & _).
  - unfold pks_unique; simpl. repeat constructor; simpl; lia.
  - reflexivity.
  - simpl. intuition discriminate.
  - simpl. lia.
  - reflexivity.
  - reflexivity.
  - exists u. split; [exact He|exact Hu].
Defined.

(** X14.  An email-change request answered with 201 can be completed
    when nothing happens in between: the caller being a stored user and
    the generated code string not in use among the email-change codes, a
    consumption request that presents it within its lifetime is answered
    with 200 and the row then stored under the caller's key has the
    requested address as its email and the caller's password and flags. *)
Theorem email_change_then_verify_changes_the_address {E : Externals}
    env st request env2 request2 :
  USER_get (pk (request_user request)) st = Some (request_user request) ->
  status (snd (EmailChange_post env st request)) = HTTP_201_CREATED ->
  ~ In (fresh_code env) (map code (email_change_codes st)) ->
  (now env2 <= now env + expiry_period EmailChangeCode)%Z ->
  GET_code request2 = Some (fresh_code env) ->
  snd (ActionVerifyView_post EmailChangeCode env2
         (fst (EmailChange_post env st request)) request2)
  = mkResponse (success "Email address has been changed.") HTTP_200_OK /\
  USER_get (pk (request_user request))
    (fst (ActionVerifyView_post EmailChangeCode env2
            (fst (EmailChange_post env st request)) request2))
  = Some (with_email (d_email (data request)) (request_user request)) /\
  (exists u,
     USER_get (pk (request_user request))
       (fst (ActionVerifyView_post EmailChangeCode env2
               (fst (EmailChange_post env st request)) request2))
     = Some u /\
     email u = d_email (data request) /\
     password u = password (request_user request) /\
     is_verified u = is_verified (request_user request) /\
     is_active u = is_active (request_user request)).
Proof.
  intros Hget Hs Hfresh Ht Hc. revert Hs. unfold EmailChange_post.
  destruct (EmailChangeSerializer_is_valid (data request)); simpl;
    [|discriminate].
  pose proof (created_code_is_valid EmailChangeCode env (request_user request)
                (py_or (client_ip request) unknown_ip)
                (py_or (d_link (data request)) EmptyString)
                (d_email (data request))
                st (now env2) (request_user request) Hfresh Ht Hget) as Hv.
  unfold objects_create, send_email in Hv. simpl in Hv.
  destruct (USER_filter_email_first (d_email (data request)) st) as [h|] eqn:Hf.
  - destruct (is_verified h) eqn:Hver; simpl; [discriminate|]. intros _.
    unfold ActionVerifyView_post. rewrite Hc.
    unfold send_email. simpl. rewrite Hv. simpl.
    unfold EmailChangeVerify_handle_request. simpl.
    unfold USER_filter_email_first in *. simpl. rewrite Hf, Hver. simpl.
    split; [reflexivity|].
    split; [apply (USER_get_save (with_email (d_email (data request))
                                             (request_user request)))|].
    exists (with_email (d_email (data request)) (request_user request)).
    split; [apply (USER_get_save (with_email (d_email (data request))
                                             (request_user request)))|].
    repeat split.
  - simpl. intros _.
    unfold ActionVerifyView_post. rewrite Hc.
    unfold send_email. simpl. rewrite Hv. simpl.
    unfold EmailChangeVerify_handle_request. simpl.
    unfold USER_filter_email_first in *. simpl. rewrite Hf. simpl.
    split; [reflexivity|].
    split; [apply (USER_get_save (with_email (d_email (data request))
                                             (request_user request)))|].
    exists (with_email (d_email (data request)) (request_user request)).
    split; [apply (USER_get_save (with_email (d_email (data request))
                                             (request_user request)))|].
    repeat split.
Qed.

(** Alice asks for a free address at time 50 and confirms at time 60. *)
Lemma email_change_then_verify_witness :
  exists u,
    USER_get 1
      (fst (ActionVerifyView_post (E:=lenient) EmailChangeCode (mkEnv 60 "z")
              (fst (EmailChange_post (E:=lenient) demo_env demo_db
                      (login_request "new@example.com" EmptyString alice)))
              (demo_request "fresh")))
    = Some u /\
    email u = "new@example.com".
Proof.
  destruct (email_change_then_verify_changes_the_address (E:=lenient) demo_env
              demo_db (login_request "new@example.com" EmptyString alice)
              (mkEnv 60 "z") (demo_request "fresh"))
    as (_ & _ & (u & Hu & He & _)).
  - reflexivity.
  - reflexivity.
  - simpl. intuition discriminate.
  - simpl. lia.
  - reflexivity.
  - exists u. split; [exact Hu|exact He].
Defined.

(** ** Refused requests *)

(** X15.  The consumption views, the password-reset view, the
    email-change view and the password-change view refuse before they
    write: whenever one of them answers with a status other than its
    success status, the state is exactly what it was. *)
Theorem refusals_outside_signup_leave_the_state_untouched {E : Externals} :
  (forall k env st request,
     status (snd (ActionVerifyView_post k env st request)) <> HTTP_200_OK ->
     fst (ActionVerifyView_post k env st request) = st) /\
  (forall env st request,
     status (snd (PasswordReset_post env st request)) = HTTP_400_BAD_REQUEST ->
     fst (PasswordReset_post env st request) = st) /\
  (forall env st request,
     status (snd (EmailChange_post env st request)) = HTTP_400_BAD_REQUEST ->
     fst (EmailChange_post env st request) = st) /\
  (forall st request,
     status (snd (PasswordChange_post st request)) = HTTP_400_BAD_REQUEST ->
     fst (PasswordChange_post st request) = st).
Proof.
  split; [|split; [|split]].
  - intros k env st request Hs.
    apply (ActionVerifyView_post_failure k env st request _
             (snd (ActionVerifyView_post k env st request)));
      [apply surjective_pairing|exact Hs].
  - intros env st request Hs.
    apply (PasswordReset_post_failure env st request _
             (snd (PasswordReset_post env st request)));
      [apply surjective_pairing|exact Hs].
  - intros env st request Hs.
    apply (EmailChange_post_failure env st request _
             (snd (EmailChange_post env st request)));
      [apply surjective_pairing|exact Hs].
  - intros st request Hs.
    apply (PasswordChange_post_failure st request _
             (snd (PasswordChange_post st request)));
      [apply surjective_pairing|exact Hs].
Qed.

(** The outcome of [Signup.post] when it does not answer 201. *)
Lemma Signup_post_refused {E : Externals} env st request :
  status (snd (Signup_post env st request)) <> HTTP_201_CREATED ->
  status (snd (Signup_post env st request)) = HTTP_400_BAD_REQUEST /\
  (forall k, objects k (fst (Signup_post env st request)) = objects k st) /\
  tokens (fst (Signup_post env st request)) = tokens st /\
  outbox (fst (Signup_post env st request)) = outbox st /\
  (fst (Signup_post env st request) = st \/
   USER_filter_email_first (d_email (data request)) st = None /\
   users (fst (Signup_post env st request))
   = (users st ++ [mkUser (next_pk st) (d_email (data request)) EmptyString
                          EmptyString EmptyString false true])%list).
Proof.
  unfold Signup_post.
  destruct (SignupSerializer_is_valid (data request)); simpl;
    [|intros _; repeat split; auto].
  unfold check_verified_users, USER_get_or_create.
  destruct (USER_filter_email_first (d_email (data request)) st) as [u0|] eqn:Hf.
  - simpl. destruct (is_verified u0); simpl; [intros _; repeat split; auto|].
    destruct (UserSerializer_is_valid u0 (data request)); simpl;
      [intro H; exfalso; apply H; reflexivity|].
    intros _; repeat split; auto.
  - simpl.
    destruct (UserSerializer_is_valid _ (data request)); simpl;
      [intro H; exfalso; apply H; reflexivity|].
    intros _. split; [reflexivity|]. split; [intro k; destruct k; reflexivity|].
    split; [reflexivity|]. split; [reflexivity|]. right. split; reflexivity.
Qed.

(** X16.  A signup that is not answered with 201 is answered with 400;
    it has created no code, sent no mail and touched no token, and the user
    table is either what it was or, when nobody owned the requested
    address, has gained exactly one row: an unverified, active stub with
    that address and no password. *)
Theorem refused_signup_writes_at_most_a_stub {E : Externals} env st request :
  status (snd (Signup_post env st request)) <> HTTP_201_CREATED ->
  status (snd (Signup_post env st request)) = HTTP_400_BAD_REQUEST /\
  signup_codes (fst (Signup_post env st request)) = signup_codes st /\
  password_reset_codes (fst (Signup_post env st request))
  = password_reset_codes st /\
  email_change_codes (fst (Signup_post env st request)) = email_change_codes st /\
  tokens (fst (Signup_post env st request)) = tokens st /\
  outbox (fst (Signup_post env st request)) = outbox st /\
  (users (fst (Signup_post env st request)) = users st \/
   (forall u, In u (users st) -> email u <> d_email (data request)) /\
   users (fst (Signup_post env st request))
   = (users st ++ [mkUser (next_pk st) (d_email (data request)) EmptyString
                          EmptyString EmptyString false true])%list).
Proof.
  intro Hs.
  destruct (Signup_post_refused env st request Hs)
    as (H400 & Hobj & Htok & Hout & Hus).
  split; [exact H400|].
  split; [exact (Hobj SignupCode)|].
  split; [exact (Hobj PasswordResetCode)|].
  split; [exact (Hobj EmailChangeCode)|].
  split; [exact Htok|]. split; [exact Hout|].
  destruct Hus as [->|[Hnone Hus]]; [left; reflexivity|right].
  split; [|exact Hus].
  intros u Hin. exact (first_by_email_none _ _ u Hnone Hin).
Qed.

(** A signup for the address of the verified Carol is refused: no code
    is created and the user table is what it was. *)
Lemma refused_signup_witness :
  signup_codes (fst (Signup_post (E:=lenient) demo_env demo_db
                       (login_request "carol@example.com" EmptyString carol)))
  = signup_codes demo_db.
Proof.
  apply (refused_signup_writes_at_most_a_stub (E:=lenient) demo_env
           demo_db (login_request "carol@example.com" EmptyString carol)).
  simpl. discriminate.
Defined.

(** ** Signing up again *)

Lemma first_by_email_exists e st u :
  In u (users st) -> email u = e ->
  exists h, USER_filter_email_first e st = Some h.
Proof.
  intros Hin He. unfold USER_filter_email_first.
  assert (Hf : In u (filter (has_email e) (users st))).
  { apply filter_In. split; [exact Hin|]. apply String.eqb_eq, He. }
  destruct (filter (has_email e) (users st)) as [|h l]; [destruct Hf|].
  exists h. reflexivity.
Qed.

Lemma map_pk_User_save_stored u h st :
  In h (users st) -> pk u = pk h ->
  map pk (users (User_save u st)) = map pk (users st).
Proof.
  intros Hin Hpk. unfold User_save.
  assert (Hex : existsb (has_pk (pk u)) (users st) = true).
  { apply existsb_exists. exists h. split; [exact Hin|].
    apply Nat.eqb_eq. symmetry. exact Hpk. }
  rewrite Hex. simpl. apply map_pk_replace.
Qed.

(** X17.  After a signup that was answered with 201, any further signup
    for the same address, whatever its outcome, adds no user row: the
    primary keys in the user table are the same before and after it; and
    it deletes no signup code, so the code issued first stays
    outstanding. *)
Theorem signup_again_adds_no_user_and_keeps_the_codes {E : Externals}
    env st request env2 request2 :
  status (snd (Signup_post env st request)) = HTTP_201_CREATED ->
  d_email (data request2) = d_email (data request) ->
  map pk (users (fst (Signup_post env2 (fst (Signup_post env st request))
                        request2)))
  = map pk (users (fst (Signup_post env st request))) /\
  (forall r, In r (signup_codes (fst (Signup_post env st request))) ->
     In r (signup_codes (fst (Signup_post env2 (fst (Signup_post env st request))
                                request2)))).
Proof.
  intros Hs He2.
  destruct (Signup_post_created env st request Hs)
    as (st0 & u & _ & _ & Hget & He & Heq).
  rewrite Heq. cbn [fst].
  set (st1 := send_email _ _ _ _).
  assert (Hin : In u (users st1)).
  { apply USER_get_In in Hget. exact Hget. }
  clearbody st1.
  destruct (first_by_email_exists _ _ _ Hin He) as [h Hh].
  pose proof (first_by_email_holds _ _ _ Hh) as [Hhin _].
  unfold Signup_post.
  destruct (SignupSerializer_is_valid (data request2)); simpl; [|auto].
  unfold check_verified_users, USER_get_or_create. rewrite He2, Hh. simpl.
  destruct (is_verified h); simpl; [auto|].
  destruct (UserSerializer_is_valid h (data request2)); simpl; [|auto].
  split.
  - apply (map_pk_User_save_stored _ h); [exact Hhin|reflexivity].
  - intros r Hr. apply in_or_app. left.
    rewrite (objects_User_save SignupCode). exact Hr.
Qed.

(** Dave signs up twice; the second signup reuses his row and leaves his
    first code in place. *)
Lemma signup_again_witness :
  let st1 := fst (Signup_post (E:=lenient) demo_env demo_db (demo_request "x")) in
  let st2 := fst (Signup_post (E:=lenient) (mkEnv 60 "fresh2") st1
                    (demo_request "y")) in
  map pk (users st2) = [1; 2; 3; 4] /\
  In (mkCodeRow "fresh" 4 50 150 "10.0.0.9" EmptyString EmptyString)
     (signup_codes st2).
Proof.
  intros st1 st2.
  destruct (signup_again_adds_no_user_and_keeps_the_codes (E:=lenient) demo_env
              demo_db (demo_request "x") (mkEnv 60 "fresh2") (demo_request "y")
              eq_refl eq_refl) as [Hk Hc].
  split; [exact Hk|].
  apply Hc. simpl. auto 10.
Defined.

(** ** Password change *)

(** X18.  The password-change view answers 200 exactly when the
    serializer accepts the request and the presented current password
    matches the caller's; and whatever the outcome it touches no code, sends
    no mail and leaves every user row other than the caller's as it was. *)
Theorem password_change_requires_the_current_password {E : Externals}
    st request :
  (status (snd (PasswordChange_post st request)) = HTTP_200_OK <->
   PasswordChangeSerializer_is_valid (data request) = true /\
   check_password (request_user request) (d_password (data request)) = true) /\
  (forall k, objects k (fst (PasswordChange_post st request)) = objects k st) /\
  outbox (fst (PasswordChange_post st request)) = outbox st /\
  (forall p, p <> pk (request_user request) ->
     USER_get p (fst (PasswordChange_post st request)) = USER_get p st).
Proof.
  unfold PasswordChange_post.
  destruct (PasswordChangeSerializer_is_valid (data request)); simpl.
  - destruct (check_password (request_user request) (d_password (data request)));
      simpl.
    + split; [tauto|]. split; [intro k; apply objects_User_save|].
      split; [apply outbox_User_save|].
      intros p Hp.
      apply (USER_get_save_other
               (set_password (d_new_password (data request))
                             (request_user request))).
      exact Hp.
    + split; [|auto]. split; [discriminate|intros [_ H]; discriminate H].
  - split; [|auto]. split; [discriminate|intros [H _]; discriminate H].
Qed.

(** ** The recorded client address *)





(** ** Uniqueness of code strings *)

Lemma codes_unique_created {E : Externals} k env u ip lnk addr st :
  codes_unique k st ->
  ~ In (fresh_code env) (map code (objects k st)) ->
  codes_unique k (send_email k (snd (objects_create k env u ip lnk addr st)) u
                             (fst (objects_create k env u ip lnk addr st))).
Proof.
  unfold codes_unique, send_email, objects_create. simpl. intros Hu Hfresh.
  rewrite objects_send, objects_set_objects, map_app. simpl.
  apply NoDup_snoc; assumption.
Qed.

(** X20.  Code strings that are unique within a kind stay unique: a
    consumption request of any kind keeps them unique in every table, and
    so does each of the three issuing views in its own table provided the
    generated string is not already in use there. *)
Theorem code_strings_stay_unique {E : Externals} env st request :
  (forall k, codes_unique k st) ->
  (forall k k', codes_unique k (fst (ActionVerifyView_post k' env st request))) /\
  (~ In (fresh_code env) (map code (signup_codes st)) ->
   codes_unique SignupCode (fst (Signup_post env st request))) /\
  (~ In (fresh_code env) (map code (password_reset_codes st)) ->
   codes_unique PasswordResetCode (fst (PasswordReset_post env st request))) /\
  (~ In (fresh_code env) (map code (email_change_codes st)) ->
   codes_unique EmailChangeCode (fst (EmailChange_post env st request))).
Proof.
  intro Hall. split; [|split; [|split]].
  - intros k k'. unfold ActionVerifyView_post.
    destruct (check_is_valid k' (now env) st (GET_code request)) as [err|ac];
      [apply Hall|].
    destruct k'; simpl.
    + unfold codes_unique, SignupVerify_handle_action_code,
        objects_filter_user_delete, verify_user, send_welcome_email.
      destruct k; simpl; rewrite ?objects_send;
        rewrite ?(objects_User_save SignupCode);
        try exact (eq_ind_r (fun l => NoDup (map code l)) (Hall PasswordResetCode)
                     (objects_User_save PasswordResetCode _ st));
        try exact (eq_ind_r (fun l => NoDup (map code l)) (Hall EmailChangeCode)
                     (objects_User_save EmailChangeCode _ st)).
      apply NoDup_map_filter, (Hall SignupCode).
    + unfold PasswordResetVerify_handle_request.
      destruct (PasswordResetVerifiedSerializer_is_valid (data request)); simpl;
        [|apply Hall].
      unfold codes_unique, PasswordResetVerify_handle_action_code,
        objects_filter_user_delete, change_user_password.
      destruct k; simpl;
        rewrite ?(objects_User_save PasswordResetCode);
        try exact (eq_ind_r (fun l => NoDup (map code l)) (Hall SignupCode)
                     (objects_User_save SignupCode _ st));
        try exact (eq_ind_r (fun l => NoDup (map code l)) (Hall EmailChangeCode)
                     (objects_User_save EmailChangeCode _ st)).
      apply NoDup_map_filter, (Hall PasswordResetCode).
    + unfold EmailChangeVerify_handle_request.
      destruct (USER_filter_email_first _ st) as [h|];
        [destruct (is_verified h); simpl; [apply Hall|]|simpl].
      * unfold codes_unique, EmailChangeVerify_handle_action_code,
          objects_filter_user_delete, change_user_email.
        destruct k; simpl.
        -- rewrite (objects_User_save SignupCode). simpl.
           apply NoDup_map_filter, (Hall SignupCode).
        -- rewrite (objects_User_save PasswordResetCode). simpl.
           apply NoDup_map_filter, (Hall PasswordResetCode).
        -- rewrite (objects_User_save EmailChangeCode). simpl.
           apply NoDup_map_filter, NoDup_map_filter, (Hall EmailChangeCode).
      * unfold codes_unique, EmailChangeVerify_handle_action_code,
          objects_filter_user_delete, change_user_email.
        destruct k; simpl.
        -- rewrite (objects_User_save SignupCode). apply (Hall SignupCode).
        -- rewrite (objects_User_save PasswordResetCode).
           apply (Hall PasswordResetCode).
        -- rewrite (objects_User_save EmailChangeCode).
           apply NoDup_map_filter, (Hall EmailChangeCode).
  - intro Hfresh.
    destruct (Nat.eq_dec (status (snd (Signup_post env st request)))
                         HTTP_201_CREATED) as [Hs|Hs].
    + destruct (Signup_post_created env st request Hs)
        as (st0 & u & Ho & _ & _ & _ & Heq).
      rewrite Heq. cbn [fst]. apply codes_unique_created.
      * unfold codes_unique. rewrite (Ho SignupCode). apply (Hall SignupCode).
      * rewrite (Ho SignupCode). exact Hfresh.
    + destruct (Signup_post_refused env st request Hs) as (_ & Ho & _).
      unfold codes_unique. rewrite Ho. apply (Hall SignupCode).
  - intro Hfresh. unfold PasswordReset_post.
    destruct (PasswordResetSerializer_is_valid (data request)); simpl;
      [|apply Hall].
    destruct (USER_filter_email_first _ st) as [u|]; [|apply Hall].
    destruct (is_verified u && is_active u); simpl; [|apply Hall].
    apply (codes_unique_created PasswordResetCode); [apply Hall|exact Hfresh].
  - intro Hfresh. unfold EmailChange_post.
    destruct (EmailChangeSerializer_is_valid (data request)); simpl;
      [|apply Hall].
    destruct (match USER_filter_email_first _ st with
              | Some u => is_verified u | None => false end); simpl;
      [apply Hall|].
    apply (codes_unique_created EmailChangeCode); [apply Hall|exact Hfresh].
Qed.

(** Alice consumes "e1" on the demo state, whose code strings are
    unique. *)
Lemma code_strings_stay_unique_witness :
  codes_unique SignupCode
    (fst (ActionVerifyView_post (E:=lenient) EmailChangeCode demo_env demo_db
            (demo_request "e1"))).
Proof.
  destruct (code_strings_stay_unique (E:=lenient) demo_env demo_db
              (demo_request "e1")) as [H _].
  - intro k; destruct k; unfold codes_unique; simpl;
      repeat constructor; simpl; intuition discriminate.
  - exact (H SignupCode EmailChangeCode).
Defined.

(** ** Every refusal comes before the first write *)



